(** * Verification of [src/embeddings.py]

    A shallow embedding of the two process-wide model holders of the
    retrieval system, [EmbeddingModelSingleton] (text to vector) and
    [CrossEncoderModelSingleton] (pairs of texts to scores), and the
    properties their specification states about them.

    The Python code is glue over three libraries (transformers, torch/numpy
    and sentence_transformers).  What those libraries compute is not part of
    the repository: it is an interface ([Backend]) the development is
    parametric in.  What the glue does with the values it gets back
    (exception handling, logging, slicing, conversion, storing attributes) is
    modelled as written. *)

From Stdlib Require Import ZArith List Lia PrimFloat.
From stdpp Require Import base countable gmap strings list.

Set Warnings "-register-all".
Local Open Scope string_scope.

(** ** Python values and exceptions *)

(** The part of Python's exception hierarchy that [except Exception]
    distinguishes: every class derives from [BaseException], and all but
    three of the built-in ones derive from [Exception] as well. *)
Inductive exc_class : Type :=
  | KeyboardInterrupt
  | SystemExit
  | GeneratorExit
  | ExceptionSubclass (name : string).

Record exn : Type := mk_exn {
  exn_class : exc_class;
  exn_traceback : string
}.

(** [isinstance(e, Exception)] *)
Definition isinstance_Exception (e : exn) : bool :=
  match exn_class e with
  | ExceptionSubclass _ => true
  | _ => false
  end.

Definition IndexError : exn := mk_exn (ExceptionSubclass "IndexError") "IndexError".
Definition RuntimeError : exn := mk_exn (ExceptionSubclass "RuntimeError") "RuntimeError".
Definition TypeError : exn := mk_exn (ExceptionSubclass "TypeError") "TypeError".

(** The result of evaluating a Python expression. *)
Inductive outcome (A : Type) : Type :=
  | Return (a : A)
  | Raise (e : exn).
Arguments Return {A} a.
Arguments Raise {A} e.

(** ** numpy arrays and torch tensors

    An array is its shape and its elements in row-major order. *)
Record ndarray : Type := mk_ndarray {
  shape : list nat;
  data : list float
}.

Definition size_of (shp : list nat) : nat := fold_right Nat.mul 1 shp.

(** The values [__call__] hands back: floats, (nested) lists, arrays. *)
Inductive pyobj : Type :=
  | PyFloat (x : float)
  | PyList (l : list pyobj)
  | PyArray (a : ndarray).

(** [chunks n k l]: the first [n] consecutive blocks of [k] elements. *)
Fixpoint chunks {A : Type} (n k : nat) (l : list A) : list (list A) :=
  match n with
  | O => []
  | S n' => firstn k l :: chunks n' k (skipn k l)
  end.

(** [np.array([])] *)
Definition np_array_empty : ndarray := mk_ndarray [0] [].

(** [a.flatten()] *)
Definition flatten (a : ndarray) : ndarray :=
  mk_ndarray [length (data a)] (data a).

(** [a.tolist()]: nested lists following the shape. *)
Fixpoint tolist_aux (shp : list nat) (d : list float) : pyobj :=
  match shp with
  | [] => PyFloat (hd 0%float d)
  | n :: rest => PyList (map (tolist_aux rest) (chunks n (size_of rest) d))
  end.

Definition tolist (a : ndarray) : pyobj := tolist_aux (shape a) (data a).

(** The element types of torch that hidden states come in. *)
Inductive dtype : Type :=
  | float16
  | bfloat16
  | float32
  | float64.

(** The element types numpy has as well: all of them but bfloat16. *)
Definition numpy_supports (d : dtype) : bool :=
  match d with
  | bfloat16 => false
  | _ => true
  end.

Record Tensor : Type := mk_Tensor {
  t_shape : list nat;
  t_data : list float;
  t_device : string;
  t_requires_grad : bool;
  t_dtype : dtype
}.

Definition wf_Tensor (t : Tensor) : Prop :=
  length (t_data t) = size_of (t_shape t).

(** [t[:, 0, :]]: needs three dimensions at least, and a second dimension
    that is not empty. *)
Definition getitem_all_0_all (t : Tensor) : outcome Tensor :=
  match t_shape t with
  | b :: s :: h :: rest =>
      let w := size_of (h :: rest) in
      match s with
      | O => Raise IndexError
      | S _ =>
          Return (mk_Tensor (b :: h :: rest)
                    (concat (map (firstn w) (chunks b (s * w) (t_data t))))
                    (t_device t) (t_requires_grad t) (t_dtype t))
      end
  | _ => Raise IndexError
  end.

(** [t.cpu()] *)
Definition cpu (t : Tensor) : Tensor :=
  mk_Tensor (t_shape t) (t_data t) "cpu" (t_requires_grad t) (t_dtype t).

(** [t.detach()] *)
Definition detach (t : Tensor) : Tensor :=
  mk_Tensor (t_shape t) (t_data t) (t_device t) false (t_dtype t).

(** [t.numpy()]: torch refuses a tensor that is not in host memory, one
    that is still part of a computation graph, and one whose element type
    numpy does not have. *)
Definition numpy (t : Tensor) : outcome ndarray :=
  if negb (String.eqb (t_device t) "cpu") then Raise TypeError
  else if t_requires_grad t then Raise RuntimeError
  else if negb (numpy_supports (t_dtype t)) then Raise TypeError
  else Return (mk_ndarray (t_shape t) (t_data t)).

Record ModelOutput : Type := mk_ModelOutput {
  last_hidden_state : Tensor
}.

(** ** The libraries behind the two classes

    Calls into transformers, torch and sentence_transformers read and write
    state of their own (files, device memory, random generators): each is a
    function of the backend state that returns a value or raises.  The
    keyword arguments of the tokenizer call are passed as a record, and
    [from_pretrained] takes the [cache_dir] keyword, [None] when the caller
    leaves it out. *)
Record tokenizer_kwargs : Type := mk_kwargs {
  padding : bool;
  truncation : bool;
  return_tensors : string;
  max_length : Z
}.

Class Backend : Type := {
  backend_state : Type;
  Tokenizer : Type;
  BatchEncoding : Type;
  Net : Type;
  CrossEncoder : Type;
  (* AutoTokenizer.from_pretrained(name, cache_dir=...) *)
  AutoTokenizer_from_pretrained :
    string -> option string -> backend_state -> outcome Tokenizer * backend_state;
  (* AutoModel.from_pretrained(name, cache_dir=...): the network, the
     device it is on and whether it is in training mode *)
  AutoModel_from_pretrained :
    string -> option string -> backend_state ->
    outcome (Net * string * bool) * backend_state;
  (* moving a network to a device *)
  Net_to : Net -> string -> backend_state -> outcome Net * backend_state;
  (* tokenizer(text, padding=..., truncation=..., return_tensors=..., max_length=...) *)
  Tokenizer_call :
    Tokenizer -> string -> tokenizer_kwargs -> backend_state ->
    outcome BatchEncoding * backend_state;
  (* encoding.to(device) *)
  BatchEncoding_to :
    BatchEncoding -> string -> backend_state -> outcome BatchEncoding * backend_state;
  (* the forward pass of a network on a device, in training mode or not *)
  Net_forward :
    Net -> string -> bool -> BatchEncoding -> backend_state ->
    outcome ModelOutput * backend_state;
  (* CrossEncoder(model_name=..., device=...) *)
  CrossEncoder_new :
    string -> string -> backend_state -> outcome CrossEncoder * backend_state;
  (* model.predict(pairs) *)
  CrossEncoder_predict :
    CrossEncoder -> list (string * string) -> backend_state ->
    outcome ndarray * backend_state
}.

(** A [torch.nn.Module]: the network, the device it is on, and whether it
    is in training mode. *)
Record Model `{Backend} : Type := mk_Model {
  net : Net;
  model_device : string;
  training : bool
}.

(** [pathlib.Path]; [str(p)] is [path_str p], and a [Path] is always true
    in a condition. *)
Record Path : Type := mk_Path { path_str : string }.

(** ** The two classes: attributes *)

Module EmbeddingModelSingleton.
Record t `{Backend} : Type := mk {
  _model_id : string;
  _embedding_size : Z;
  _device : string;
  _max_input_length : Z;
  _tokenizer : Tokenizer;
  _model : Model
}.

(** The read-only properties. *)
Definition model_id `{Backend} (self : t) : string := _model_id self.
Definition embedding_size `{Backend} (self : t) : Z := _embedding_size self.
Definition max_input_length `{Backend} (self : t) : Z := _max_input_length self.
Definition tokenizer `{Backend} (self : t) : Tokenizer := _tokenizer self.
End EmbeddingModelSingleton.

Module CrossEncoderModelSingleton.
Record t `{Backend} : Type := mk {
  _model_id : string;
  _device : string;
  _model : CrossEncoder
}.
End CrossEncoderModelSingleton.

(** ** Program state: the singleton registry, the log, the libraries *)

Inductive cls : Type :=
  | EmbeddingModelSingleton_cls
  | CrossEncoderModelSingleton_cls.

#[global] Instance cls_eq_dec : EqDecision cls.
Proof. solve_decision. Defined.

#[global] Instance cls_countable : Countable cls.
Proof.
  refine (inj_countable'
            (fun c => match c with
                      | EmbeddingModelSingleton_cls => true
                      | CrossEncoderModelSingleton_cls => false
                      end)
            (fun b => if b then EmbeddingModelSingleton_cls
                      else CrossEncoderModelSingleton_cls) _).
  intros []; reflexivity.
Defined.

Inductive Instance `{Backend} : Type :=
  | EncoderObj (e : EmbeddingModelSingleton.t)
  | ScorerObj (s : CrossEncoderModelSingleton.t).

Record LogRecord : Type := mk_LogRecord {
  levelname : string;
  message : string
}.

Record State `{Backend} : Type := mk_State {
  instances : gmap cls Instance;
  log : list LogRecord;
  backend : backend_state
}.

(** Computations: read and write the state, return or raise.  An exception
    leaves the state as it was when it was raised. *)
Definition M `{Backend} (A : Type) : Type := State -> outcome A * State.

Definition ret `{Backend} {A : Type} (a : A) : M A := fun st => (Return a, st).

Definition bind `{Backend} {A B : Type} (m : M A) (k : A -> M B) : M B :=
  fun st =>
    match m st with
    | (Return a, st') => k a st'
    | (Raise e, st') => (Raise e, st')
    end.

Declare Scope py_scope.
Delimit Scope py_scope with py.
Notation "x <- c1 ;; c2" := (bind c1 (fun x => c2))
  (at level 100, c1 at next level, right associativity) : py_scope.
Notation "c1 ;;; c2" := (bind c1 (fun _ => c2))
  (at level 100, right associativity) : py_scope.

(** A call into a library. *)
Definition ext `{Backend} {A : Type}
    (f : backend_state -> outcome A * backend_state) : M A :=
  fun st =>
    let (r, b) := f (backend st) in
    (r, {| instances := instances st; log := log st; backend := b |}).

(** A pure expression that may raise. *)
Definition eval `{Backend} {A : Type} (r : outcome A) : M A := fun st => (r, st).

(** [logger.error(msg)] *)
Definition logger_error `{Backend} (msg : string) : M unit :=
  fun st =>
    (Return tt,
     {| instances := instances st;
        log := log st ++ [mk_LogRecord "ERROR" msg];
        backend := backend st |}).

(** [traceback.format_exc()] inside a handler of [e] *)
Definition format_exc (e : exn) : string := exn_traceback e.

(** [try: x = body / except Exception: handler] where the handler ends in
    [return], followed by the rest of the function. *)
Definition try_except_Exception `{Backend} {A B : Type}
    (body : M A) (handler : exn -> M B) (rest : A -> M B) : M B :=
  fun st =>
    match body st with
    | (Return a, st') => rest a st'
    | (Raise e, st') =>
        if isinstance_Exception e then handler e st' else (Raise e, st')
    end.

Notation "'try' x <- body 'except_Exception' e => handler 'then' rest" :=
  (try_except_Exception body (fun e => handler) (fun x => rest))
  (at level 100, x name, e name, body at next level, handler at next level,
   right associativity) : py_scope.

Local Open Scope py_scope.

(** ** The metaclass *)

(** [cls in cls._instances] and [cls._instances[cls]] *)
Definition get_instance `{Backend} (c : cls) : M (option Instance) :=
  fun st => (Return (instances st !! c), st).

(** [cls._instances[cls] = inst] *)
Definition set_instance `{Backend} (c : cls) (inst : Instance) : M unit :=
  fun st =>
    (Return tt,
     {| instances := <[c := inst]> (instances st);
        log := log st;
        backend := backend st |}).

(** Modelled from the spec: [SingletonMeta.__call__], the metaclass of both
    classes, is imported from [src.base], which is not among the sources.
    The specification describes it as a lazy-initialization holder keyed by
    entity type: the first call of a class constructs the instance ([new],
    the ordinary construction with the arguments of the call) and keeps it;
    every later call returns the kept instance and ignores its arguments. *)
Definition SingletonMeta_call `{Backend} (c : cls) (new : M Instance) : M Instance :=
  found <- get_instance c ;;
  match found with
  | Some inst => ret inst
  | None =>
      inst <- new ;;
      set_instance c inst ;;;
      ret inst
  end.

(** ** torch modules *)

(** [AutoModel.from_pretrained(model_id, cache_dir=...)] *)
Definition AutoModel_load `{Backend} (model_id : string) (cache_dir : option string)
    : M Model :=
  loaded <- ext (AutoModel_from_pretrained model_id cache_dir) ;;
  ret {| net := loaded.1.1; model_device := loaded.1.2; training := loaded.2 |}.

(** [m.to(device)] *)
Definition Model_to `{Backend} (m : Model) (device : string) : M Model :=
  n <- ext (Net_to (net m) device) ;;
  ret {| net := n; model_device := device; training := training m |}.

(** [m.eval()] *)
Definition Model_eval `{Backend} (m : Model) : Model :=
  {| net := net m; model_device := model_device m; training := false |}.

(** Calling the module on the entries of the encoding as keyword arguments. *)
Definition Model_call `{Backend} (m : Model) (inputs : BatchEncoding) : M ModelOutput :=
  ext (Net_forward (net m) (model_device m) (training m) inputs).

(** ** EmbeddingModelSingleton *)

(** [str(cache_dir) if cache_dir else None] *)
Definition cache_dir_kwarg (cache_dir : option Path) : option string :=
  match cache_dir with
  | Some p => Some (path_str p)
  | None => None
  end.

Definition EmbeddingModelSingleton__init__ `{Backend}
    (model_id : string) (embedding_size : Z) (max_input_length : Z)
    (device : string) (cache_dir : option Path) : M EmbeddingModelSingleton.t :=
  tokenizer <- ext (AutoTokenizer_from_pretrained model_id None) ;;
  loaded <- AutoModel_load model_id (cache_dir_kwarg cache_dir) ;;
  model <- Model_to loaded device ;;
  ret {| EmbeddingModelSingleton._model_id := model_id;
         EmbeddingModelSingleton._embedding_size := embedding_size;
         EmbeddingModelSingleton._device := device;
         EmbeddingModelSingleton._max_input_length := max_input_length;
         EmbeddingModelSingleton._tokenizer := tokenizer;
         EmbeddingModelSingleton._model := Model_eval model |}.

(** [[] if to_list else np.array([])] *)
Definition empty_result (to_list : bool) : pyobj :=
  if to_list then PyList [] else PyArray np_array_empty.

(** The body of the first [try]. *)
Definition tokenize `{Backend} (self : EmbeddingModelSingleton.t) (input_text : string)
    : M BatchEncoding :=
  enc <- ext (Tokenizer_call (EmbeddingModelSingleton._tokenizer self) input_text
                {| padding := true;
                   truncation := true;
                   return_tensors := "pt";
                   max_length := EmbeddingModelSingleton._max_input_length self |}) ;;
  ext (BatchEncoding_to enc (EmbeddingModelSingleton._device self)).

(** The lines after the second [try]. *)
Definition pool `{Backend} (result : ModelOutput) (to_list : bool) : M pyobj :=
  sliced <- eval (getitem_all_0_all (last_hidden_state result)) ;;
  embeddings <- eval (numpy (detach (cpu sliced))) ;;
  ret (if to_list then tolist (flatten embeddings) else PyArray embeddings).

Definition EmbeddingModelSingleton__call__ `{Backend}
    (self : EmbeddingModelSingleton.t) (input_text : string) (to_list : bool)
    : M pyobj :=
  try tokenized_text <- tokenize self input_text
  except_Exception e =>
    (logger_error (format_exc e) ;;;
     logger_error ("Error tokenizing the following input text: " ++ input_text) ;;;
     ret (empty_result to_list))
  then
  try result <- Model_call (EmbeddingModelSingleton._model self) tokenized_text
  except_Exception e =>
    (logger_error (format_exc e) ;;;
     logger_error ("Error generating embeddings for the following model_id: "
                   ++ EmbeddingModelSingleton._model_id self
                   ++ " and input text: " ++ input_text) ;;;
     ret (empty_result to_list))
  then
  pool result to_list.

(** ** CrossEncoderModelSingleton *)

Definition CrossEncoderModelSingleton__init__ `{Backend}
    (model_id : string) (device : string) : M CrossEncoderModelSingleton.t :=
  model <- ext (CrossEncoder_new model_id device) ;;
  ret {| CrossEncoderModelSingleton._model_id := model_id;
         CrossEncoderModelSingleton._device := device;
         CrossEncoderModelSingleton._model := model |}.

Definition CrossEncoderModelSingleton__call__ `{Backend}
    (self : CrossEncoderModelSingleton.t) (pairs : list (string * string))
    : M pyobj :=
  scores <- ext (CrossEncoder_predict (CrossEncoderModelSingleton._model self) pairs) ;;
  ret (tolist scores).

(** ** Calling the classes: construction goes through the metaclass *)

Definition EmbeddingModelSingleton_new `{Backend}
    (model_id : string) (embedding_size : Z) (max_input_length : Z)
    (device : string) (cache_dir : option Path) : M Instance :=
  SingletonMeta_call EmbeddingModelSingleton_cls
    (self <- EmbeddingModelSingleton__init__
               model_id embedding_size max_input_length device cache_dir ;;
     ret (EncoderObj self)).

Definition CrossEncoderModelSingleton_new `{Backend}
    (model_id : string) (device : string) : M Instance :=
  SingletonMeta_call CrossEncoderModelSingleton_cls
    (self <- CrossEncoderModelSingleton__init__ model_id device ;;
     ret (ScorerObj self)).

(** What a process can do with the two classes, one call at a time. *)
Inductive step `{Backend} : State -> State -> Prop :=
  | step_new_encoder model_id embedding_size max_input_length device cache_dir st :
      step st (EmbeddingModelSingleton_new
                 model_id embedding_size max_input_length device cache_dir st).2
  | step_new_scorer model_id device st :
      step st (CrossEncoderModelSingleton_new model_id device st).2
  | step_encode self input_text to_list st :
      step st (EmbeddingModelSingleton__call__ self input_text to_list st).2
  | step_score self pairs st :
      step st (CrossEncoderModelSingleton__call__ self pairs st).2.

(** ** Notions used in the statements *)

(** A state with [records] appended to its log. *)
Definition logged `{Backend} (st : State) (records : list LogRecord) : State :=
  {| instances := instances st; log := log st ++ records; backend := backend st |}.

Definition ERROR (msg : string) : LogRecord := mk_LogRecord "ERROR" msg.

(** Computations that leave the registry alone. *)
Definition preserves_instances `{Backend} {A : Type} (m : M A) : Prop :=
  forall st, instances (m st).2 = instances st.

(** Computations that leave the log alone. *)
Definition preserves_log `{Backend} {A : Type} (m : M A) : Prop :=
  forall st, log (m st).2 = log st.

(** Computations whose outcome does not depend on the state they start in. *)
Definition state_independent `{Backend} {A : Type} (m : M A) : Prop :=
  forall st st', (m st).1 = (m st').1.

(** An array has as many elements as its shape says. *)
Definition wf_ndarray (a : ndarray) : Prop :=
  length (data a) = size_of (shape a).

(** The numbers a value carries, in order, whatever the container. *)
Fixpoint content (o : pyobj) : list float :=
  match o with
  | PyFloat x => [x]
  | PyList l => concat (map content l)
  | PyArray a => data a
  end.

(** [t[b, s, :]] in a tensor of shape (batch, tokens, hidden): the hidden
    state of token [s] of text [b], read off the row-major layout. *)
Definition hidden_state_at (t : Tensor) (b s : nat) : list float :=
  match t_shape t with
  | [_; n_tokens; width] =>
      firstn width (skipn ((b * n_tokens + s) * width) (t_data t))
  | _ => []
  end.

(** The hidden states of the first token of every text of the batch. *)
Definition first_token_states (t : Tensor) : list float :=
  match t_shape t with
  | [batch; _; _] => concat (map (fun b => hidden_state_at t b 0) (seq 0 batch))
  | _ => []
  end.

(** A deterministic numeric backend: what tokenizing, moving an encoding to
    a device and the forward pass return depends on their arguments only,
    not on the state of the libraries. *)
Definition deterministic_backend `{Backend} : Prop :=
  (forall tk text kw b b',
      (Tokenizer_call tk text kw b).1 = (Tokenizer_call tk text kw b').1) /\
  (forall enc device b b',
      (BatchEncoding_to enc device b).1 = (BatchEncoding_to enc device b').1) /\
  (forall n device train x b b',
      (Net_forward n device train x b).1 = (Net_forward n device train x b').1).

(** The instance with another configured embedding size. *)
Definition with_embedding_size `{Backend} (self : EmbeddingModelSingleton.t) (n : Z)
    : EmbeddingModelSingleton.t :=
  {| EmbeddingModelSingleton._model_id := EmbeddingModelSingleton._model_id self;
     EmbeddingModelSingleton._embedding_size := n;
     EmbeddingModelSingleton._device := EmbeddingModelSingleton._device self;
     EmbeddingModelSingleton._max_input_length :=
       EmbeddingModelSingleton._max_input_length self;
     EmbeddingModelSingleton._tokenizer := EmbeddingModelSingleton._tokenizer self;
     EmbeddingModelSingleton._model := EmbeddingModelSingleton._model self |}.

(** ** A stub backend

    A small deterministic implementation of the library interface, used to
    run the definitions on concrete inputs.  Its state counts the library
    calls made so far.  Tokens are character codes between the two markers
    101 and 102, cut to [max_length]; hidden states are three floats wide;
    a text that contains ["?"] cannot be tokenized, a text that contains
    ["!"] makes the forward pass fail, and a pair with an empty first text
    makes the pairwise model fail. *)
Module Stub.

Definition ValueError : exn :=
  mk_exn (ExceptionSubclass "ValueError") "ValueError: text cannot be tokenized".
Definition OutOfMemoryError : exn :=
  mk_exn (ExceptionSubclass "OutOfMemoryError") "OutOfMemoryError: device memory exhausted".
Definition OSError : exn :=
  mk_exn (ExceptionSubclass "OSError") "OSError: no such model".

Definition codes (s : string) : list Z :=
  map (fun c => Z.of_nat (Ascii.nat_of_ascii c)) (String.list_ascii_of_string s).

Definition mem (z : Z) (l : list Z) : bool := existsb (Z.eqb z) l.

Fixpoint float_of_nat (n : nat) : float :=
  match n with
  | O => 0%float
  | S n' => (float_of_nat n' + 1)%float
  end.

(** One row of hidden state per token: position, token code, a constant. *)
Fixpoint hidden_rows (pos : nat) (ids : list Z) : list float :=
  match ids with
  | [] => []
  | t :: rest =>
      [float_of_nat pos; float_of_nat (Z.to_nat t); 0.5%float]
        ++ hidden_rows (S pos) rest
  end.

Definition tokenizer_call (tk : string * option string) (text : string)
    (kw : tokenizer_kwargs) (b : nat) : outcome (list Z * string) * nat :=
  if mem 63 (codes text) then (Raise ValueError, S b)
  else
    let ids := firstn (Z.to_nat (max_length kw)) (101 :: codes text ++ [102])%Z in
    (Return (ids, "cpu"), S b).

Definition net_forward (n : string * option string) (device : string)
    (train : bool) (x : list Z * string) (b : nat) : outcome ModelOutput * nat :=
  if mem 33 x.1 then (Raise OutOfMemoryError, S b)
  else
    (Return (mk_ModelOutput
               (mk_Tensor [1; length x.1; 3] (hidden_rows 0 x.1) device true float32)),
     S b).

Definition predict (m : string) (pairs : list (string * string)) (b : nat)
    : outcome ndarray * nat :=
  if existsb (fun p => String.eqb p.1 EmptyString) pairs then (Raise ValueError, S b)
  else
    (Return (mk_ndarray [length pairs]
               (map (fun p => float_of_nat (String.length p.1 + String.length p.2))
                    pairs)),
     S b).

#[local] Instance stub : Backend := {|
  backend_state := nat;
  Tokenizer := string * option string;
  BatchEncoding := list Z * string;
  Net := string * option string;
  CrossEncoder := string;
  AutoTokenizer_from_pretrained name cache b :=
    if String.eqb name EmptyString then (Raise OSError, S b) else (Return (name, cache), S b);
  AutoModel_from_pretrained name cache b :=
    if String.eqb name EmptyString then (Raise OSError, S b)
    else (Return ((name, cache), "cpu", true), S b);
  Net_to n device b := (Return n, S b);
  Tokenizer_call := tokenizer_call;
  BatchEncoding_to x device b := (Return (x.1, device), S b);
  Net_forward := net_forward;
  CrossEncoder_new name device b :=
    if String.eqb name EmptyString then (Raise OSError, S b) else (Return name, S b);
  CrossEncoder_predict := predict
|}.

(** A process that has constructed nothing and logged nothing after [n]
    library calls; a fresh process has made none. *)
Definition after_calls (n : nat) : State :=
  {| instances := ∅; log := []; backend := n |}.

Definition st0 : State := after_calls 0.

(** An encoder over the stub model, configured with [embedding_size]. *)
Definition encoder (embedding_size : Z) : EmbeddingModelSingleton.t :=
  {| EmbeddingModelSingleton._model_id := "stub-encoder";
     EmbeddingModelSingleton._embedding_size := embedding_size;
     EmbeddingModelSingleton._device := "cuda";
     EmbeddingModelSingleton._max_input_length := 8;
     EmbeddingModelSingleton._tokenizer := ("stub-encoder", None);
     EmbeddingModelSingleton._model :=
       {| net := ("stub-encoder", None); model_device := "cuda"; training := false |} |}.

Definition scorer : CrossEncoderModelSingleton.t :=
  {| CrossEncoderModelSingleton._model_id := "stub-scorer";
     CrossEncoderModelSingleton._device := "cuda";
     CrossEncoderModelSingleton._model := "stub-scorer" |}.

(** The encoder that constructing the class with model ["model-a"], size
    768, at most 8 tokens, on ["cuda"] and no cache directory yields, and
    the state of a fresh process after that construction. *)
Definition constructed : EmbeddingModelSingleton.t :=
  {| EmbeddingModelSingleton._model_id := "model-a";
     EmbeddingModelSingleton._embedding_size := 768;
     EmbeddingModelSingleton._device := "cuda";
     EmbeddingModelSingleton._max_input_length := 8;
     EmbeddingModelSingleton._tokenizer := ("model-a", None);
     EmbeddingModelSingleton._model :=
       {| net := ("model-a", None); model_device := "cuda"; training := false |} |}.

Definition st1 : State :=
  {| instances := <[EmbeddingModelSingleton_cls := EncoderObj constructed]> ∅;
     log := [];
     backend := 3 |}.

(** An encoder whose tokenizer is allowed no token at all: the model then
    hands back a hidden state with an empty token dimension. *)
Definition encoder_no_tokens : EmbeddingModelSingleton.t :=
  {| EmbeddingModelSingleton._model_id := "stub-encoder";
     EmbeddingModelSingleton._embedding_size := 3;
     EmbeddingModelSingleton._device := "cuda";
     EmbeddingModelSingleton._max_input_length := 0;
     EmbeddingModelSingleton._tokenizer := ("stub-encoder", None);
     EmbeddingModelSingleton._model :=
       {| net := ("stub-encoder", None); model_device := "cuda"; training := false |} |}.

End Stub.

(** ** An interrupted backend

    The stub backend, except that every tokenizer call is interrupted from
    the keyboard. *)
Module Interrupted.

Definition Interrupt : exn := mk_exn KeyboardInterrupt "KeyboardInterrupt".

#[local] Instance interrupted : Backend := {|
  backend_state := nat;
  Tokenizer := string * option string;
  BatchEncoding := list Z * string;
  Net := string * option string;
  CrossEncoder := string;
  AutoTokenizer_from_pretrained name cache b := (Return (name, cache), S b);
  AutoModel_from_pretrained name cache b := (Return ((name, cache), "cpu", true), S b);
  Net_to n device b := (Return n, S b);
  Tokenizer_call tk text kw b := (Raise Interrupt, S b);
  BatchEncoding_to x device b := (Return (x.1, device), S b);
  Net_forward := Stub.net_forward;
  CrossEncoder_new name device b := (Return name, S b);
  CrossEncoder_predict := Stub.predict
|}.

Definition after_calls (n : nat) : State :=
  {| instances := ∅; log := []; backend := n |}.

Definition encoder : EmbeddingModelSingleton.t :=
  {| EmbeddingModelSingleton._model_id := "stub-encoder";
     EmbeddingModelSingleton._embedding_size := 3;
     EmbeddingModelSingleton._device := "cuda";
     EmbeddingModelSingleton._max_input_length := 8;
     EmbeddingModelSingleton._tokenizer := ("stub-encoder", None);
     EmbeddingModelSingleton._model :=
       {| net := ("stub-encoder", None); model_device := "cuda"; training := false |} |}.

End Interrupted.

(** ** A backend with a two-label pairwise model

    The stub backend, except that the pairwise model gives two scores per
    pair, the lengths of its two texts: an array of shape (n, 2). *)
Module TwoLabels.

Definition predict (m : string) (pairs : list (string * string)) (b : nat)
    : outcome ndarray * nat :=
  (Return (mk_ndarray [length pairs; 2]
             (concat (map (fun p => [Stub.float_of_nat (String.length p.1);
                                     Stub.float_of_nat (String.length p.2)])
                          pairs))),
   S b).

#[local] Instance two_labels : Backend := {|
  backend_state := nat;
  Tokenizer := string * option string;
  BatchEncoding := list Z * string;
  Net := string * option string;
  CrossEncoder := string;
  AutoTokenizer_from_pretrained name cache b := (Return (name, cache), S b);
  AutoModel_from_pretrained name cache b := (Return ((name, cache), "cpu", true), S b);
  Net_to n device b := (Return n, S b);
  Tokenizer_call := Stub.tokenizer_call;
  BatchEncoding_to x device b := (Return (x.1, device), S b);
  Net_forward := Stub.net_forward;
  CrossEncoder_new name device b := (Return name, S b);
  CrossEncoder_predict := predict
|}.

Definition after_calls (n : nat) : State :=
  {| instances := ∅; log := []; backend := n |}.

Definition st0 : State := after_calls 0.

Definition scorer : CrossEncoderModelSingleton.t :=
  {| CrossEncoderModelSingleton._model_id := "stub-scorer";
     CrossEncoderModelSingleton._device := "cuda";
     CrossEncoderModelSingleton._model := "stub-scorer" |}.

End TwoLabels.

(** ** A backend with a model in bfloat16

    The stub backend, except that the hidden states of the model are
    bfloat16 tensors. *)
Module HalfPrecision.

Definition net_forward (n : string * option string) (device : string)
    (train : bool) (x : list Z * string) (b : nat) : outcome ModelOutput * nat :=
  (Return (mk_ModelOutput
             (mk_Tensor [1; length x.1; 3] (Stub.hidden_rows 0 x.1) device true
                bfloat16)),
   S b).

#[local] Instance half_precision : Backend := {|
  backend_state := nat;
  Tokenizer := string * option string;
  BatchEncoding := list Z * string;
  Net := string * option string;
  CrossEncoder := string;
  AutoTokenizer_from_pretrained name cache b := (Return (name, cache), S b);
  AutoModel_from_pretrained name cache b := (Return ((name, cache), "cpu", true), S b);
  Net_to n device b := (Return n, S b);
  Tokenizer_call := Stub.tokenizer_call;
  BatchEncoding_to x device b := (Return (x.1, device), S b);
  Net_forward := net_forward;
  CrossEncoder_new name device b := (Return name, S b);
  CrossEncoder_predict := Stub.predict
|}.

Definition after_calls (n : nat) : State :=
  {| instances := ∅; log := []; backend := n |}.

(** An encoder whose configured size is the width of the model. *)
Definition encoder : EmbeddingModelSingleton.t :=
  {| EmbeddingModelSingleton._model_id := "stub-encoder";
     EmbeddingModelSingleton._embedding_size := 3;
     EmbeddingModelSingleton._device := "cuda";
     EmbeddingModelSingleton._max_input_length := 8;
     EmbeddingModelSingleton._tokenizer := ("stub-encoder", None);
     EmbeddingModelSingleton._model :=
       {| net := ("stub-encoder", None); model_device := "cuda"; training := false |} |}.

End HalfPrecision.

(** * Properties *)

(** ** Running computations *)

Section Frame.
Context {BE : Backend}.

Lemma bind_Return {A B : Type} (m : M A) (k : A -> M B) st a st' :
  m st = (Return a, st') -> bind m k st = k a st'.
Proof. unfold bind. intros ->. reflexivity. Qed.

Lemma bind_Raise {A B : Type} (m : M A) (k : A -> M B) st e st' :
  m st = (Raise e, st') -> bind m k st = (Raise e, st').
Proof. unfold bind. intros ->. reflexivity. Qed.

Lemma ext_run {A : Type} (f : backend_state -> outcome A * backend_state) st :
  ext f st =
  ((f (backend st)).1,
   {| instances := instances st; log := log st; backend := (f (backend st)).2 |}).
Proof. unfold ext. destruct (f (backend st)); reflexivity. Qed.

Lemma preserves_instances_ret {A : Type} (a : A) : preserves_instances (ret a).
Proof. intros st. reflexivity. Qed.

Lemma preserves_instances_eval {A : Type} (r : outcome A) : preserves_instances (eval r).
Proof. intros st. reflexivity. Qed.

Lemma preserves_instances_ext {A : Type} (f : backend_state -> outcome A * backend_state) :
  preserves_instances (ext f).
Proof. intros st. rewrite ext_run. reflexivity. Qed.

Lemma preserves_instances_logger_error msg : preserves_instances (logger_error msg).
Proof. intros st. reflexivity. Qed.

Lemma preserves_instances_bind {A B : Type} (m : M A) (k : A -> M B) :
  preserves_instances m -> (forall a, preserves_instances (k a)) ->
  preserves_instances (bind m k).
Proof.
  intros Hm Hk st. unfold bind. specialize (Hm st).
  destruct (m st) as [[a|e] st']; simpl in *.
  - rewrite Hk. exact Hm.
  - exact Hm.
Qed.

Lemma preserves_instances_try {A B : Type} (body : M A) (handler : exn -> M B)
    (rest : A -> M B) :
  preserves_instances body -> (forall e, preserves_instances (handler e)) ->
  (forall a, preserves_instances (rest a)) ->
  preserves_instances (try_except_Exception body handler rest).
Proof.
  intros Hb Hh Hr st. unfold try_except_Exception. specialize (Hb st).
  destruct (body st) as [[a|e] st']; simpl in *.
  - rewrite Hr. exact Hb.
  - destruct (isinstance_Exception e); [rewrite Hh|]; exact Hb.
Qed.

Lemma preserves_log_ret {A : Type} (a : A) : preserves_log (ret a).
Proof. intros st. reflexivity. Qed.

Lemma preserves_log_eval {A : Type} (r : outcome A) : preserves_log (eval r).
Proof. intros st. reflexivity. Qed.

Lemma preserves_log_ext {A : Type} (f : backend_state -> outcome A * backend_state) :
  preserves_log (ext f).
Proof. intros st. rewrite ext_run. reflexivity. Qed.

Lemma preserves_log_bind {A B : Type} (m : M A) (k : A -> M B) :
  preserves_log m -> (forall a, preserves_log (k a)) -> preserves_log (bind m k).
Proof.
  intros Hm Hk st. unfold bind. specialize (Hm st).
  destruct (m st) as [[a|e] st']; simpl in *.
  - rewrite Hk. exact Hm.
  - exact Hm.
Qed.

Lemma state_independent_ret {A : Type} (a : A) : state_independent (ret a).
Proof. intros st st'. reflexivity. Qed.

Lemma state_independent_eval {A : Type} (r : outcome A) : state_independent (eval r).
Proof. intros st st'. reflexivity. Qed.

Lemma state_independent_logger_error msg : state_independent (logger_error msg).
Proof. intros st st'. reflexivity. Qed.

Lemma state_independent_ext {A : Type} (f : backend_state -> outcome A * backend_state) :
  (forall b b', (f b).1 = (f b').1) -> state_independent (ext f).
Proof. intros Hf st st'. rewrite !ext_run. simpl. apply Hf. Qed.

Lemma state_independent_bind {A B : Type} (m : M A) (k : A -> M B) :
  state_independent m -> (forall a, state_independent (k a)) ->
  state_independent (bind m k).
Proof.
  intros Hm Hk st st'. unfold bind. specialize (Hm st st').
  destruct (m st) as [[a|e] st1], (m st') as [[a'|e'] st1']; simpl in *;
    try discriminate.
  - injection Hm as ->. apply Hk.
  - injection Hm as ->. reflexivity.
Qed.

Lemma state_independent_try {A B : Type} (body : M A) (handler : exn -> M B)
    (rest : A -> M B) :
  state_independent body -> (forall e, state_independent (handler e)) ->
  (forall a, state_independent (rest a)) ->
  state_independent (try_except_Exception body handler rest).
Proof.
  intros Hb Hh Hr st st'. unfold try_except_Exception. specialize (Hb st st').
  destruct (body st) as [[a|e] st1], (body st') as [[a'|e'] st1']; simpl in *;
    try discriminate.
  - injection Hb as ->. apply Hr.
  - injection Hb as ->. destruct (isinstance_Exception e'); [apply Hh | reflexivity].
Qed.

End Frame.

Create HintDb frame.

#[local] Hint Resolve preserves_instances_ret preserves_instances_eval
  preserves_instances_ext preserves_instances_logger_error
  preserves_instances_bind preserves_instances_try : frame.
#[local] Hint Resolve preserves_log_ret preserves_log_eval preserves_log_ext
  preserves_log_bind : frame.
#[local] Hint Resolve state_independent_ret state_independent_eval
  state_independent_logger_error state_independent_bind state_independent_try
  : frame.

(** ** Arrays and tensors *)

Lemma chunks_singletons {A : Type} (l : list A) :
  chunks (length l) 1 l = map (fun x => [x]) l.
Proof.
  induction l as [|x l IH]; simpl; [reflexivity|].
  rewrite firstn_O, skipn_O, IH. reflexivity.
Qed.

Lemma tolist_1d d : tolist (mk_ndarray [length d] d) = PyList (map PyFloat d).
Proof.
  unfold tolist. cbn [tolist_aux shape data]. change (size_of []) with 1.
  rewrite chunks_singletons, map_map. reflexivity.
Qed.

Lemma tolist_flatten a : tolist (flatten a) = PyList (map PyFloat (data a)).
Proof. unfold flatten. apply tolist_1d. Qed.

Lemma content_floats d : content (PyList (map PyFloat d)) = d.
Proof. simpl. rewrite map_map. simpl. induction d as [|x d IH]; simpl; congruence. Qed.

(** After [.cpu().detach()] the conversion can only fail on the element
    type. *)
Lemma numpy_detach_cpu t :
  numpy (detach (cpu t)) =
  if numpy_supports (t_dtype t) then Return (mk_ndarray (t_shape t) (t_data t))
  else Raise TypeError.
Proof. unfold numpy. simpl. now destruct (numpy_supports (t_dtype t)). Qed.

(** Block [i] of [chunks] starts at offset [i * k]; cutting every block to
    its first [w] elements reads [w] elements at every such offset. *)
Lemma concat_firstn_chunks {A : Type} w k b off (d : list A) :
  w <= k ->
  concat (map (firstn w) (chunks b k (skipn off d))) =
  concat (map (fun i => firstn w (skipn (off + i * k) d)) (seq 0 b)).
Proof.
  intros Hw. revert off. induction b as [|b IH]; intros off; simpl; [reflexivity|].
  rewrite Nat.add_0_r. f_equal.
  - rewrite firstn_firstn. f_equal. lia.
  - rewrite skipn_skipn, IH, <- seq_shift, map_map.
    f_equal. apply map_ext. intros i. do 2 f_equal. lia.
Qed.

(** The slice taken by [__call__] is the first-token hidden state of every
    text of the batch. *)
Lemma getitem_first_token t B S H :
  t_shape t = [B; S; H] -> 0 < S ->
  getitem_all_0_all t =
  Return (mk_Tensor [B; H] (first_token_states t) (t_device t) (t_requires_grad t)
            (t_dtype t)).
Proof.
  intros Hs HS. unfold getitem_all_0_all, first_token_states. rewrite Hs.
  destruct S as [|S']; [lia|]. do 2 f_equal.
  change (size_of [H]) with (H * 1). rewrite Nat.mul_1_r.
  rewrite <- (skipn_O (t_data t)) at 1.
  rewrite concat_firstn_chunks by (simpl; lia).
  f_equal. apply map_ext. intros b. unfold hidden_state_at. rewrite Hs.
  do 2 f_equal. lia.
Qed.

Lemma chunks_length {A : Type} n k (l : list A) : length (chunks n k l) = n.
Proof.
  revert l. induction n as [|n IH]; intros l; simpl; [reflexivity|]. now rewrite IH.
Qed.

Lemma concat_chunks {A : Type} n k (l : list A) :
  length l = n * k -> concat (chunks n k l) = l.
Proof.
  revert l. induction n as [|n IH]; intros l Hl; simpl in *.
  - symmetry. now apply length_zero_iff_nil.
  - rewrite IH; [apply firstn_skipn | rewrite length_skipn; lia].
Qed.

Lemma chunks_lookup {A : Type} n k (l : list A) i :
  i < n -> chunks n k l !! i = Some (firstn k (skipn (i * k) l)).
Proof.
  revert l i. induction n as [|n IH]; intros l i Hi; [lia|].
  destruct i as [|i]; simpl.
  - reflexivity.
  - rewrite IH by lia. rewrite skipn_skipn. do 3 f_equal. lia.
Qed.

(** [tolist] keeps the numbers of a well-formed array, in order, whatever
    its shape. *)
Lemma content_tolist_aux shp d :
  length d = size_of shp -> content (tolist_aux shp d) = d.
Proof.
  revert d. induction shp as [|n rest IH]; intros d Hd.
  - destruct d as [|x [|y d]]; try discriminate. reflexivity.
  - change (size_of (n :: rest)) with (n * size_of rest) in Hd.
    cbn [tolist_aux content]. rewrite map_map.
    revert d Hd. generalize (size_of rest) IH. clear. intros k IH.
    induction n as [|n IHn]; intros d Hd; simpl in *.
    + symmetry. now apply length_zero_iff_nil.
    + rewrite IH by (rewrite length_firstn; lia).
      rewrite IHn by (rewrite length_skipn; lia). apply firstn_skipn.
Qed.

Lemma lookup_concat_rows {A : Type} (f : nat -> list A) H n off b h :
  (forall i, i < n -> length (f (off + i)) = H) -> b < n -> h < H ->
  concat (map f (seq off n)) !! (b * H + h) = f (off + b) !! h.
Proof.
  revert off b. induction n as [|n IH]; intros off b Hlen Hb Hh; [lia|].
  assert (H0 : length (f off) = H).
  { rewrite <- (Nat.add_0_r off). apply Hlen. lia. }
  simpl. destruct b as [|b].
  - simpl. rewrite lookup_app_l by lia. now rewrite Nat.add_0_r.
  - rewrite lookup_app_r by (simpl; lia). rewrite H0.
    replace (Datatypes.S b * H + h - H) with (b * H + h) by (simpl; lia).
    rewrite IH; [| | lia | assumption].
    + do 2 f_equal. lia.
    + intros i Hi. replace (S off + i) with (off + S i) by lia. apply Hlen. lia.
Qed.

Lemma string_append_assoc (s1 s2 s3 : string) :
  (s1 ++ s2) ++ s3 = s1 ++ (s2 ++ s3).
Proof.
  induction s1 as [|c s1 IH]; [reflexivity|].
  change (String c ((s1 ++ s2) ++ s3) = String c (s1 ++ (s2 ++ s3))).
  now rewrite IH.
Qed.

(** ** How [__call__] of the encoder runs *)

Section Encoder.
Context {BE : Backend}.
Implicit Types (self : EmbeddingModelSingleton.t) (st : State).

Lemma logged_twice st r1 r2 :
  {| instances := instances st; log := (log st ++ [r1]) ++ [r2]; backend := backend st |}
  = logged st [r1; r2].
Proof. unfold logged. now rewrite <- app_assoc. Qed.

Lemma pool_run result to_list st :
  pool result to_list st =
  (match getitem_all_0_all (last_hidden_state result) with
   | Return sliced =>
       if numpy_supports (t_dtype sliced) then
         let a := mk_ndarray (t_shape sliced) (t_data sliced) in
         Return (if to_list then PyList (map PyFloat (data a)) else PyArray a)
       else Raise TypeError
   | Raise e => Raise e
   end, st).
Proof.
  unfold pool, bind, eval, ret.
  destruct (getitem_all_0_all (last_hidden_state result)) as [sliced|e]; [|reflexivity].
  rewrite numpy_detach_cpu. destruct (numpy_supports (t_dtype sliced)); [|reflexivity].
  cbv zeta. destruct to_list; [|reflexivity]. now rewrite tolist_flatten.
Qed.

Lemma call_tokenize_raises self text to_list st e st1 :
  tokenize self text st = (Raise e, st1) ->
  EmbeddingModelSingleton__call__ self text to_list st =
  if isinstance_Exception e then
    (Return (empty_result to_list),
     logged st1 [ERROR (format_exc e);
                 ERROR ("Error tokenizing the following input text: " ++ text)])
  else (Raise e, st1).
Proof.
  intros Htok. unfold EmbeddingModelSingleton__call__, try_except_Exception.
  rewrite Htok. destruct (isinstance_Exception e); [|reflexivity].
  unfold bind, logger_error, ret. cbn. now rewrite logged_twice.
Qed.

Lemma call_forward_raises self text to_list st tok st1 e st2 :
  tokenize self text st = (Return tok, st1) ->
  Model_call (EmbeddingModelSingleton._model self) tok st1 = (Raise e, st2) ->
  EmbeddingModelSingleton__call__ self text to_list st =
  if isinstance_Exception e then
    (Return (empty_result to_list),
     logged st2 [ERROR (format_exc e);
                 ERROR ("Error generating embeddings for the following model_id: "
                        ++ EmbeddingModelSingleton._model_id self
                        ++ " and input text: " ++ text)])
  else (Raise e, st2).
Proof.
  intros Htok Hfwd. unfold EmbeddingModelSingleton__call__, try_except_Exception.
  rewrite Htok, Hfwd. destruct (isinstance_Exception e); [|reflexivity].
  unfold bind, logger_error, ret. cbn. now rewrite logged_twice.
Qed.

(** What the two handlers let through: an exception that is not an
    [Exception] (an interrupt, an exit request) is raised again, and
    nothing is logged. *)
Lemma call_reraises_non_Exception self text to_list st e st1 :
  isinstance_Exception e = false ->
  tokenize self text st = (Raise e, st1) ->
  EmbeddingModelSingleton__call__ self text to_list st = (Raise e, st1).
Proof. intros He Htok. now rewrite (call_tokenize_raises _ _ _ _ _ _ Htok), He. Qed.

Lemma call_success self text to_list st tok st1 result st2 :
  tokenize self text st = (Return tok, st1) ->
  Model_call (EmbeddingModelSingleton._model self) tok st1 = (Return result, st2) ->
  EmbeddingModelSingleton__call__ self text to_list st = pool result to_list st2.
Proof.
  intros Htok Hfwd. unfold EmbeddingModelSingleton__call__, try_except_Exception.
  now rewrite Htok, Hfwd.
Qed.

(** On a hidden state of shape (batch, tokens, hidden) with one token at
    least, the result is the first-token states, as a list or as an array. *)
Lemma call_pooled self text to_list st tok st1 result st2 B S H :
  tokenize self text st = (Return tok, st1) ->
  Model_call (EmbeddingModelSingleton._model self) tok st1 = (Return result, st2) ->
  t_shape (last_hidden_state result) = [B; S; H] -> 0 < S ->
  numpy_supports (t_dtype (last_hidden_state result)) = true ->
  EmbeddingModelSingleton__call__ self text to_list st =
  (Return (if to_list
           then PyList (map PyFloat (first_token_states (last_hidden_state result)))
           else PyArray (mk_ndarray [B; H]
                           (first_token_states (last_hidden_state result)))),
   st2).
Proof.
  intros Htok Hfwd Hshape HS Hdtype.
  rewrite (call_success _ _ _ _ _ _ _ _ Htok Hfwd), pool_run.
  rewrite (getitem_first_token _ _ _ _ Hshape HS). simpl. now rewrite Hdtype.
Qed.

(** The conversion to numpy is after the second handler as well: a hidden
    state in an element type numpy does not have raises [TypeError]. *)
Lemma call_unsupported_dtype self text to_list st tok st1 result st2 B S H :
  tokenize self text st = (Return tok, st1) ->
  Model_call (EmbeddingModelSingleton._model self) tok st1 = (Return result, st2) ->
  t_shape (last_hidden_state result) = [B; S; H] -> 0 < S ->
  numpy_supports (t_dtype (last_hidden_state result)) = false ->
  EmbeddingModelSingleton__call__ self text to_list st = (Raise TypeError, st2).
Proof.
  intros Htok Hfwd Hshape HS Hdtype.
  rewrite (call_success _ _ _ _ _ _ _ _ Htok Hfwd), pool_run.
  rewrite (getitem_first_token _ _ _ _ Hshape HS). simpl. now rewrite Hdtype.
Qed.

Lemma first_token_states_single (t : Tensor) S H :
  t_shape t = [1; S; H] -> first_token_states t = hidden_state_at t 0 0.
Proof.
  intros Hs. unfold first_token_states. rewrite Hs. simpl. apply app_nil_r.
Qed.

Lemma first_token_states_length (t : Tensor) B S H :
  t_shape t = [B; S; H] -> wf_Tensor t -> 0 < S ->
  length (first_token_states t) = B * H.
Proof.
  intros Hs Hwf HS. unfold first_token_states, wf_Tensor in *. rewrite Hs in *.
  simpl in Hwf. rewrite Nat.mul_1_r in Hwf.
  assert (Hall : forall b, b < B -> length (hidden_state_at t b 0) = H).
  { intros b Hb. unfold hidden_state_at. rewrite Hs.
    rewrite length_firstn, length_skipn, Hwf.
    assert (E1 : S * H + b * (S * H) <= B * (S * H)).
    { change (Datatypes.S b * (S * H) <= B * (S * H)).
      apply Nat.mul_le_mono_r. lia. }
    assert (E2 : H <= S * H) by nia.
    rewrite Nat.add_0_r, <- Nat.mul_assoc. lia. }
  clear Hwf. revert Hall. generalize (hidden_state_at t). intros f.
  assert (Hgen : forall n off, (forall b, b < off + n -> length (f b 0) = H) ->
                 length (concat (map (fun b => f b 0) (seq off n))) = n * H).
  { induction n as [|n IH]; intros off Hall; simpl; [reflexivity|].
    rewrite length_app, Hall by lia. rewrite IH; [lia|].
    intros b Hb. apply Hall. lia. }
  intros Hall. apply Hgen. exact Hall.
Qed.

Lemma hidden_state_at_length (t : Tensor) B S H b :
  t_shape t = [B; S; H] -> wf_Tensor t -> 0 < S -> b < B ->
  length (hidden_state_at t b 0) = H.
Proof.
  intros Hs Hwf HS Hb. unfold hidden_state_at, wf_Tensor in *. rewrite Hs in *.
  simpl in Hwf. rewrite Nat.mul_1_r in Hwf.
  rewrite length_firstn, length_skipn, Hwf.
  assert (E1 : S * H + b * (S * H) <= B * (S * H)).
  { change (Datatypes.S b * (S * H) <= B * (S * H)).
    apply Nat.mul_le_mono_r. lia. }
  assert (E2 : H <= S * H) by nia.
  rewrite Nat.add_0_r, <- Nat.mul_assoc. lia.
Qed.

(** Element [h] of row [b] of the pooled states is element (b, 0, h) of
    the hidden state, at its place in the row-major layout. *)
Lemma first_token_states_lookup (t : Tensor) B S H b h :
  t_shape t = [B; S; H] -> wf_Tensor t -> 0 < S -> b < B -> h < H ->
  first_token_states t !! (b * H + h) = t_data t !! ((b * S + 0) * H + h).
Proof.
  intros Hs Hwf HS Hb Hh. unfold first_token_states. rewrite Hs.
  rewrite (lookup_concat_rows (fun b => hidden_state_at t b 0) H B 0 b h);
    [| | assumption | assumption].
  - simpl. unfold hidden_state_at. rewrite Hs.
    rewrite lookup_take_lt by assumption. now rewrite lookup_drop.
  - intros i Hi. simpl. now apply (hidden_state_at_length t B S H).
Qed.

Lemma tokenize_preserves_instances self text : preserves_instances (tokenize self text).
Proof. unfold tokenize. auto with frame. Qed.

Lemma tokenize_preserves_log self text : preserves_log (tokenize self text).
Proof. unfold tokenize. auto with frame. Qed.

Lemma Model_call_preserves_log (m : Model) x : preserves_log (Model_call m x).
Proof. unfold Model_call. auto with frame. Qed.

Lemma call_preserves_instances self text to_list :
  preserves_instances (EmbeddingModelSingleton__call__ self text to_list).
Proof.
  unfold EmbeddingModelSingleton__call__, pool, Model_call.
  pose proof (tokenize_preserves_instances self text).
  auto 10 with frame.
Qed.

Lemma tokenize_state_independent self text :
  deterministic_backend -> state_independent (tokenize self text).
Proof.
  intros (Htok & Hto & _). unfold tokenize.
  apply state_independent_bind; intros; apply state_independent_ext; auto.
Qed.

Lemma call_state_independent self text to_list :
  deterministic_backend ->
  state_independent (EmbeddingModelSingleton__call__ self text to_list).
Proof.
  intros Hdet. pose proof (tokenize_state_independent self text Hdet).
  destruct Hdet as (_ & _ & Hfwd).
  unfold EmbeddingModelSingleton__call__, pool, Model_call.
  apply state_independent_try; [assumption | auto 10 with frame |].
  intros tok. apply state_independent_try; [| auto 10 with frame | auto 10 with frame].
  apply state_independent_ext. auto.
Qed.

Lemma call_with_embedding_size self n text to_list st :
  EmbeddingModelSingleton__call__ (with_embedding_size self n) text to_list st =
  EmbeddingModelSingleton__call__ self text to_list st.
Proof. reflexivity. Qed.

End Encoder.

(** ** Construction and the registry *)

Section Singleton.
Context {BE : Backend}.
Implicit Types (st : State) (c : cls) (inst : Instance).

Lemma SingletonMeta_call_hit c (new : M Instance) st inst :
  instances st !! c = Some inst ->
  SingletonMeta_call c new st = (Return inst, st).
Proof.
  intros Hc. unfold SingletonMeta_call, bind, get_instance. now rewrite Hc.
Qed.

Lemma SingletonMeta_call_miss c (new : M Instance) st :
  instances st !! c = None ->
  SingletonMeta_call c new st =
  match new st with
  | (Return inst, st') =>
      (Return inst,
       {| instances := <[c := inst]> (instances st');
          log := log st';
          backend := backend st' |})
  | (Raise e, st') => (Raise e, st')
  end.
Proof.
  intros Hc. unfold SingletonMeta_call, bind, get_instance, set_instance, ret.
  rewrite Hc. destruct (new st) as [[inst|e] st']; reflexivity.
Qed.

(** A call of a class never replaces an instance the registry holds. *)
Lemma SingletonMeta_call_keeps c c' (new : M Instance) st inst :
  preserves_instances new ->
  instances st !! c' = Some inst ->
  instances (SingletonMeta_call c new st).2 !! c' = Some inst.
Proof.
  intros Hnew Hc'. destruct (instances st !! c) as [held|] eqn:Hc.
  - now rewrite (SingletonMeta_call_hit _ _ _ _ Hc).
  - rewrite (SingletonMeta_call_miss _ _ _ Hc). specialize (Hnew st).
    destruct (new st) as [[made|e] st']; simpl in *.
    + rewrite Hnew, lookup_insert_ne; [assumption | congruence].
    + now rewrite Hnew.
Qed.

Lemma AutoModel_load_run model_id cache st :
  AutoModel_load model_id cache st =
  (match (AutoModel_from_pretrained model_id cache (backend st)).1 with
   | Return loaded =>
       Return {| net := loaded.1.1; model_device := loaded.1.2; training := loaded.2 |}
   | Raise e => Raise e
   end,
   {| instances := instances st;
      log := log st;
      backend := (AutoModel_from_pretrained model_id cache (backend st)).2 |}).
Proof.
  unfold AutoModel_load, bind, ret. rewrite ext_run.
  destruct (AutoModel_from_pretrained model_id cache (backend st)) as [[loaded|e] b];
    reflexivity.
Qed.

Lemma Model_to_run (m : Model) device st :
  Model_to m device st =
  (match (Net_to (net m) device (backend st)).1 with
   | Return n => Return {| net := n; model_device := device; training := training m |}
   | Raise e => Raise e
   end,
   {| instances := instances st;
      log := log st;
      backend := (Net_to (net m) device (backend st)).2 |}).
Proof.
  unfold Model_to, bind, ret. rewrite ext_run.
  destruct (Net_to (net m) device (backend st)) as [[n|e] b]; reflexivity.
Qed.

(** What a successful [__init__] of the encoder has done: the three
    library calls it made, in order, and the attributes it stored. *)
Lemma encoder_init_Return model_id embedding_size max_input_length device cache_dir
    st self st' :
  EmbeddingModelSingleton__init__
    model_id embedding_size max_input_length device cache_dir st = (Return self, st') ->
  exists tk b1 n d0 tr0 b2 n' b3,
    AutoTokenizer_from_pretrained model_id None (backend st) = (Return tk, b1) /\
    AutoModel_from_pretrained model_id (cache_dir_kwarg cache_dir) b1
      = (Return (n, d0, tr0), b2) /\
    Net_to n device b2 = (Return n', b3) /\
    self = {| EmbeddingModelSingleton._model_id := model_id;
              EmbeddingModelSingleton._embedding_size := embedding_size;
              EmbeddingModelSingleton._device := device;
              EmbeddingModelSingleton._max_input_length := max_input_length;
              EmbeddingModelSingleton._tokenizer := tk;
              EmbeddingModelSingleton._model :=
                {| net := n'; model_device := device; training := false |} |} /\
    st' = {| instances := instances st; log := log st; backend := b3 |}.
Proof.
  unfold EmbeddingModelSingleton__init__, bind at 1. rewrite ext_run.
  destruct (AutoTokenizer_from_pretrained model_id None (backend st))
    as [[tk|e] b1] eqn:Htk; simpl; [|discriminate].
  unfold bind at 1. rewrite AutoModel_load_run. simpl.
  destruct (AutoModel_from_pretrained model_id (cache_dir_kwarg cache_dir) b1)
    as [[[[n d0] tr0]|e] b2] eqn:Hm; simpl; [|discriminate].
  unfold bind. rewrite Model_to_run. simpl.
  destruct (Net_to n device b2) as [[n'|e] b3] eqn:Hto; simpl; [|discriminate].
  unfold ret, Model_eval. simpl. intros [= <- <-].
  exists tk, b1, n, d0, tr0, b2, n', b3. auto.
Qed.

Lemma encoder_init_preserves_instances model_id embedding_size max_input_length
    device cache_dir :
  preserves_instances
    (EmbeddingModelSingleton__init__
       model_id embedding_size max_input_length device cache_dir).
Proof.
  unfold EmbeddingModelSingleton__init__, AutoModel_load, Model_to.
  auto 10 with frame.
Qed.

Lemma scorer_init_preserves_instances model_id device :
  preserves_instances (CrossEncoderModelSingleton__init__ model_id device).
Proof. unfold CrossEncoderModelSingleton__init__. auto 10 with frame. Qed.

Lemma scorer_call_preserves_instances (self : CrossEncoderModelSingleton.t) pairs :
  preserves_instances (CrossEncoderModelSingleton__call__ self pairs).
Proof. unfold CrossEncoderModelSingleton__call__. auto 10 with frame. Qed.

(** No call a process can make replaces an instance the registry holds. *)
Lemma step_keeps st st' c inst :
  step st st' -> instances st !! c = Some inst -> instances st' !! c = Some inst.
Proof.
  intros Hstep Hc. destruct Hstep.
  - apply SingletonMeta_call_keeps; [|assumption].
    pose proof (encoder_init_preserves_instances
                  model_id embedding_size max_input_length device cache_dir).
    auto with frame.
  - apply SingletonMeta_call_keeps; [|assumption].
    pose proof (scorer_init_preserves_instances model_id device).
    auto with frame.
  - now rewrite call_preserves_instances.
  - now rewrite scorer_call_preserves_instances.
Qed.

Lemma steps_keep st st' c inst :
  rtc step st st' -> instances st !! c = Some inst -> instances st' !! c = Some inst.
Proof. induction 1; eauto using step_keeps. Qed.

End Singleton.

(** ** Runs on the stub backend *)

Example run_encode_list :
  EmbeddingModelSingleton__call__ (Stub.encoder 3) "hi" true Stub.st0 =
  (Return (PyList [PyFloat 0; PyFloat 101; PyFloat 0.5]), Stub.after_calls 3).
Proof. reflexivity. Qed.

Example run_encode_array :
  EmbeddingModelSingleton__call__ (Stub.encoder 3) "hi" false Stub.st0 =
  (Return (PyArray (mk_ndarray [1; 3] [0%float; 101%float; 0.5%float])),
   Stub.after_calls 3).
Proof. reflexivity. Qed.

(** The empty text is two marker tokens: a valid input, not a failure. *)
Example run_encode_empty_text :
  EmbeddingModelSingleton__call__ (Stub.encoder 3) EmptyString true Stub.st0 =
  (Return (PyList [PyFloat 0; PyFloat 101; PyFloat 0.5]), Stub.after_calls 3).
Proof. reflexivity. Qed.

(** A text longer than the eight tokens allowed is cut, and encoded. *)
Example run_encode_long_text :
  EmbeddingModelSingleton__call__ (Stub.encoder 3) "hello world, hello" true Stub.st0 =
  (Return (PyList [PyFloat 0; PyFloat 101; PyFloat 0.5]), Stub.after_calls 3).
Proof. reflexivity. Qed.

Example run_encode_forward_failure :
  EmbeddingModelSingleton__call__ (Stub.encoder 3) "hi!" true Stub.st0 =
  (Return (PyList []),
   logged (Stub.after_calls 3)
     [ERROR "OutOfMemoryError: device memory exhausted";
      ERROR "Error generating embeddings for the following model_id: stub-encoder and input text: hi!"]).
Proof. reflexivity. Qed.

(** A failure does not spoil the instance: the next call succeeds. *)
Example run_encode_after_failure :
  EmbeddingModelSingleton__call__ (Stub.encoder 3) "hi" true
    (EmbeddingModelSingleton__call__ (Stub.encoder 3) "hi?" true Stub.st0).2 =
  (Return (PyList [PyFloat 0; PyFloat 101; PyFloat 0.5]),
   logged (Stub.after_calls 4)
     [ERROR "ValueError: text cannot be tokenized";
      ERROR "Error tokenizing the following input text: hi?"]).
Proof. reflexivity. Qed.

Example run_score :
  CrossEncoderModelSingleton__call__ Stub.scorer [("a", "bc"); ("q", "r")] Stub.st0 =
  (Return (PyList [PyFloat 3; PyFloat 2]), Stub.after_calls 1).
Proof. reflexivity. Qed.

(** ** The encoder: failure isolation, shape, pooling *)

(** C1. Whatever the text and the [to_list] flag: when tokenization (the
    tokenizer call or the move of its result to the device) or the forward
    pass raises an [Exception], [__call__] does not raise.  It logs two
    error records, the traceback and a message that ends with the input
    text, and returns the empty result: [[]] when [to_list] is true, the
    empty array otherwise. *)
Theorem encode_isolates_failures {BE : Backend}
    (self : EmbeddingModelSingleton.t) (input_text : string) (to_list : bool)
    (st st1 : State) (e : exn) :
  isinstance_Exception e = true ->
  (tokenize self input_text st = (Raise e, st1) \/
   exists tok st0,
     tokenize self input_text st = (Return tok, st0) /\
     Model_call (EmbeddingModelSingleton._model self) tok st0 = (Raise e, st1)) ->
  exists msg,
    EmbeddingModelSingleton__call__ self input_text to_list st =
      (Return (empty_result to_list),
       logged st1 [ERROR (format_exc e); ERROR msg]) /\
    (exists prefix, msg = prefix ++ input_text) /\
    empty_result to_list
      = (if to_list then PyList [] else PyArray (mk_ndarray [0] [])) /\
    content (empty_result to_list) = [].
Proof.
  intros He [Htok | (tok & st0 & Htok & Hfwd)].
  - eexists. rewrite (call_tokenize_raises _ _ _ _ _ _ Htok), He.
    split; [reflexivity|]. split; [eexists; reflexivity|].
    destruct to_list; split; reflexivity.
  - eexists. rewrite (call_forward_raises _ _ _ _ _ _ _ _ Htok Hfwd), He.
    split; [reflexivity|]. split.
    + exists ("Error generating embeddings for the following model_id: "
              ++ EmbeddingModelSingleton._model_id self ++ " and input text: ").
      now rewrite !string_append_assoc.
    + destruct to_list; split; reflexivity.
Qed.

Lemma encode_isolates_failures_witness :
  isinstance_Exception Stub.ValueError = true /\
  exists msg,
    EmbeddingModelSingleton__call__ (Stub.encoder 768) "hi?" false Stub.st0 =
      (Return (empty_result false),
       logged (Stub.after_calls 1)
         [ERROR (format_exc Stub.ValueError); ERROR msg]) /\
    (exists prefix, msg = prefix ++ "hi?") /\
    empty_result false = PyArray (mk_ndarray [0] []) /\
    content (empty_result false) = [].
Proof.
  split; [reflexivity|].
  apply (encode_isolates_failures (Stub.encoder 768) "hi?" false Stub.st0
           (Stub.after_calls 1) Stub.ValueError).
  - reflexivity.
  - left. reflexivity.
Defined.

(** C2, as the code has it.  Take an encoder whose configured
    [embedding_size] is the width H of its model, as the configuration
    requires, and a text on which tokenization and the forward pass succeed
    with a well-formed hidden state of shape (1, S, H), a token at least,
    in an element type numpy has.  Then the call returns [embedding_size]
    numbers: a flat list of [embedding_size] floats when [to_list] is true,
    and otherwise an array with the same numbers whose shape is
    (1, embedding_size), the batch dimension being kept; the size being
    positive, the output is not empty.  On a handled failure the output is
    empty. *)
Theorem encode_output_length {BE : Backend}
    (self : EmbeddingModelSingleton.t) (input_text : string) (to_list : bool)
    (st : State) :
  (forall tok st1 result st2 S H,
      tokenize self input_text st = (Return tok, st1) ->
      Model_call (EmbeddingModelSingleton._model self) tok st1 = (Return result, st2) ->
      t_shape (last_hidden_state result) = [1; S; H] ->
      wf_Tensor (last_hidden_state result) ->
      0 < S ->
      numpy_supports (t_dtype (last_hidden_state result)) = true ->
      Z.of_nat H = EmbeddingModelSingleton.embedding_size self ->
      exists emb : list float,
        EmbeddingModelSingleton__call__ self input_text to_list st =
          (Return (if to_list then PyList (map PyFloat emb)
                   else PyArray (mk_ndarray [1; H] emb)),
           st2) /\
        Z.of_nat (length emb) = EmbeddingModelSingleton.embedding_size self /\
        (forall out st',
            EmbeddingModelSingleton__call__ self input_text to_list st
              = (Return out, st') ->
            content out = emb /\
            ((0 < EmbeddingModelSingleton.embedding_size self)%Z -> content out <> []))) /\
  (forall e st1,
      isinstance_Exception e = true ->
      (tokenize self input_text st = (Raise e, st1) \/
       exists tok st0,
         tokenize self input_text st = (Return tok, st0) /\
         Model_call (EmbeddingModelSingleton._model self) tok st0 = (Raise e, st1)) ->
      exists out st',
        EmbeddingModelSingleton__call__ self input_text to_list st = (Return out, st') /\
        content out = []).
Proof.
  split.
  - intros tok st1 result st2 S H Htok Hfwd Hshape Hwf HS Hdtype Hsize.
    exists (first_token_states (last_hidden_state result)).
    pose proof (first_token_states_length _ _ _ _ Hshape Hwf HS) as Hlen.
    rewrite Nat.mul_1_l in Hlen.
    rewrite (call_pooled _ _ to_list _ _ _ _ _ _ _ _ Htok Hfwd Hshape HS Hdtype).
    split; [reflexivity|]. split; [now rewrite Hlen|].
    intros out st' [= <- <-].
    assert (Hcontent :
      content (if to_list
               then PyList (map PyFloat (first_token_states (last_hidden_state result)))
               else PyArray (mk_ndarray [1; H]
                               (first_token_states (last_hidden_state result))))
      = first_token_states (last_hidden_state result)).
    { destruct to_list; [apply content_floats | reflexivity]. }
    split; [exact Hcontent|].
    intros Hpos. rewrite Hcontent. intros Hnil. rewrite Hnil in Hlen.
    simpl in Hlen. lia.
  - intros e st1 He [Htok | (tok & st0 & Htok & Hfwd)].
    + rewrite (call_tokenize_raises _ _ _ _ _ _ Htok), He.
      do 2 eexists. split; [reflexivity|]. now destruct to_list.
    + rewrite (call_forward_raises _ _ _ _ _ _ _ _ Htok Hfwd), He.
      do 2 eexists. split; [reflexivity|]. now destruct to_list.
Qed.

Lemma encode_output_length_witness :
  exists emb : list float,
    EmbeddingModelSingleton__call__ (Stub.encoder 3) "hi" true Stub.st0 =
      (Return (PyList (map PyFloat emb)), Stub.after_calls 3) /\
    Z.of_nat (length emb) = 3%Z /\
    (forall out st',
        EmbeddingModelSingleton__call__ (Stub.encoder 3) "hi" true Stub.st0
          = (Return out, st') ->
        content out = emb /\ ((0 < 3)%Z -> content out <> [])).
Proof.
  apply (proj1 (encode_output_length (Stub.encoder 3) "hi" true Stub.st0)
           ([101; 104; 105; 102]%Z, "cuda") (Stub.after_calls 2)
           (mk_ModelOutput
              (mk_Tensor [1; 4; 3]
                 (Stub.hidden_rows 0 [101; 104; 105; 102]%Z) "cuda" true float32))
           (Stub.after_calls 3) 4 3).
  - reflexivity.
  - reflexivity.
  - reflexivity.
  - reflexivity.
  - lia.
  - reflexivity.
  - reflexivity.
Defined.

(** C2 as stated fails, with an encoder whose configured size, 3, is the
    width of its model, on the text ["hi"], which is tokenized and run
    through the model without error.  With [to_list] false the array
    returned has shape (1, 3): it is not of the shape of the flat sequence,
    and its length, the first dimension, is 1 and not the configured size.
    And over a model whose hidden states are bfloat16 the call returns no
    output at all: the conversion to numpy raises [TypeError]. *)
Lemma encode_output_length_counterexample :
  ((exists tok st1 result st2,
       tokenize (Stub.encoder 3) "hi" Stub.st0 = (Return tok, st1) /\
       Model_call (EmbeddingModelSingleton._model (Stub.encoder 3)) tok st1
         = (Return result, st2)) /\
   EmbeddingModelSingleton.embedding_size (Stub.encoder 3) = 3%Z /\
   EmbeddingModelSingleton__call__ (Stub.encoder 3) "hi" false Stub.st0 =
     (Return (PyArray (mk_ndarray [1; 3] [0%float; 101%float; 0.5%float])),
      Stub.after_calls 3) /\
   shape (mk_ndarray [1; 3] [0%float; 101%float; 0.5%float]) <> [3] /\
   Z.of_nat (hd 0 (shape (mk_ndarray [1; 3] [0%float; 101%float; 0.5%float])))
     <> EmbeddingModelSingleton.embedding_size (Stub.encoder 3)) /\
  ((exists tok st1 result st2,
       tokenize HalfPrecision.encoder "hi" (HalfPrecision.after_calls 0)
         = (Return tok, st1) /\
       Model_call (EmbeddingModelSingleton._model HalfPrecision.encoder) tok st1
         = (Return result, st2)) /\
   EmbeddingModelSingleton.embedding_size HalfPrecision.encoder = 3%Z /\
   EmbeddingModelSingleton__call__ HalfPrecision.encoder "hi" true
     (HalfPrecision.after_calls 0)
   = (Raise TypeError, HalfPrecision.after_calls 3)).
Proof.
  split; [split; [|split; [|split; [|split]]] | split; [|split]].
  - do 4 eexists. split; reflexivity.
  - reflexivity.
  - reflexivity.
  - discriminate.
  - vm_compute. discriminate.
  - do 4 eexists. split; reflexivity.
  - reflexivity.
  - reflexivity.
Qed.

(** C3. When tokenization and the forward pass succeed, with a hidden
    state of shape (B, S, H), a token at least, in an element type numpy
    has, the embedding returned is the hidden state at the first token
    position of the last hidden layer, for every text of the batch:
    element [h] of text [b] is element (b, 0, h) of the hidden state.
    It is neither a mean nor a maximum over the token positions, none of
    which but the first is read.  The hidden state may live on any device
    and be part of a computation graph, in which case numpy would refuse
    the slice as it is: what is converted is its detached copy in host
    memory. *)
Theorem encode_pools_first_token {BE : Backend}
    (self : EmbeddingModelSingleton.t) (input_text : string) (to_list : bool)
    (st st1 st2 : State) (tok : BatchEncoding) (result : ModelOutput) (B S H : nat) :
  tokenize self input_text st = (Return tok, st1) ->
  Model_call (EmbeddingModelSingleton._model self) tok st1 = (Return result, st2) ->
  t_shape (last_hidden_state result) = [B; S; H] ->
  0 < S ->
  numpy_supports (t_dtype (last_hidden_state result)) = true ->
  let t := last_hidden_state result in
  EmbeddingModelSingleton__call__ self input_text to_list st =
    (Return (if to_list then PyList (map PyFloat (first_token_states t))
             else PyArray (mk_ndarray [B; H] (first_token_states t))),
     st2) /\
  (wf_Tensor t ->
   forall b h, b < B -> h < H ->
     first_token_states t !! (b * H + h) = t_data t !! ((b * S + 0) * H + h)) /\
  (B = 1 -> first_token_states t = hidden_state_at t 0 0) /\
  (t_device t <> "cpu" \/ t_requires_grad t = true ->
   forall sliced, getitem_all_0_all t = Return sliced ->
     exists e, numpy sliced = Raise e).
Proof.
  intros Htok Hfwd Hshape HS Hdtype t. subst t.
  split; [now apply (call_pooled _ _ _ _ _ _ _ _ B S H Htok Hfwd)|].
  split; [|split].
  - intros Hwf b h Hb Hh. now apply (first_token_states_lookup _ B S H).
  - intros ->. now apply (first_token_states_single _ S H).
  - intros Hhost sliced. rewrite (getitem_first_token _ _ _ _ Hshape HS).
    intros [= <-]. unfold numpy. simpl.
    destruct (String.eqb_spec (t_device (last_hidden_state result)) "cpu") as [Hcpu|Hcpu];
      simpl; [|eexists; reflexivity].
    destruct Hhost as [Hdev | ->]; [contradiction | eexists; reflexivity].
Qed.

Lemma encode_pools_first_token_witness :
  let t := mk_Tensor [1; 4; 3] (Stub.hidden_rows 0 [101; 104; 105; 102]%Z)
             "cuda" true float32 in
  EmbeddingModelSingleton__call__ (Stub.encoder 768) "hi" false Stub.st0 =
    (Return (PyArray (mk_ndarray [1; 3] (first_token_states t))),
     Stub.after_calls 3) /\
  (wf_Tensor t ->
   forall b h, b < 1 -> h < 3 ->
     first_token_states t !! (b * 3 + h) = t_data t !! ((b * 4 + 0) * 3 + h)) /\
  (1 = 1 -> first_token_states t = hidden_state_at t 0 0) /\
  (t_device t <> "cpu" \/ t_requires_grad t = true ->
   forall sliced, getitem_all_0_all t = Return sliced ->
     exists e, numpy sliced = Raise e).
Proof.
  apply (encode_pools_first_token (Stub.encoder 768) "hi" false Stub.st0
           (Stub.after_calls 2) (Stub.after_calls 3)
           ([101; 104; 105; 102]%Z, "cuda")
           (mk_ModelOutput
              (mk_Tensor [1; 4; 3]
                 (Stub.hidden_rows 0 [101; 104; 105; 102]%Z) "cuda" true float32))
           1 4 3).
  - reflexivity.
  - reflexivity.
  - reflexivity.
  - lia.
  - reflexivity.
Defined.

(** C5. Whenever [__call__] returns with [to_list] false, the value is an
    array, and the call with [to_list] true returns, from the same state
    and into the same state, the list of the array's numbers in order: the
    same content in another container. *)
Theorem encode_representations_agree {BE : Backend}
    (self : EmbeddingModelSingleton.t) (input_text : string)
    (st st' : State) (out : pyobj) :
  EmbeddingModelSingleton__call__ self input_text false st = (Return out, st') ->
  exists a : ndarray,
    out = PyArray a /\
    EmbeddingModelSingleton__call__ self input_text true st =
      (Return (PyList (map PyFloat (data a))), st') /\
    content (PyList (map PyFloat (data a))) = content out.
Proof.
  destruct (tokenize self input_text st) as [[tok|e] st1] eqn:Htok.
  - destruct (Model_call (EmbeddingModelSingleton._model self) tok st1)
      as [[result|e] st2] eqn:Hfwd.
    + rewrite !(call_success _ _ _ _ _ _ _ _ Htok Hfwd), !pool_run.
      destruct (getitem_all_0_all (last_hidden_state result)) as [sliced|e];
        [|discriminate].
      destruct (numpy_supports (t_dtype sliced)); [|discriminate].
      cbv zeta. intros [= <- <-]. eexists. split; [reflexivity|].
      split; [reflexivity | apply content_floats].
    + rewrite !(call_forward_raises _ _ _ _ _ _ _ _ Htok Hfwd).
      destruct (isinstance_Exception e); [|discriminate].
      intros [= <- <-]. exists np_array_empty. repeat split.
  - rewrite !(call_tokenize_raises _ _ _ _ _ _ Htok).
    destruct (isinstance_Exception e); [|discriminate].
    intros [= <- <-]. exists np_array_empty. repeat split.
Qed.

Lemma encode_representations_agree_witness :
  exists a : ndarray,
    PyArray (mk_ndarray [1; 3] [0%float; 101%float; 0.5%float]) = PyArray a /\
    EmbeddingModelSingleton__call__ (Stub.encoder 768) "hi" true Stub.st0 =
      (Return (PyList (map PyFloat (data a))), Stub.after_calls 3) /\
    content (PyList (map PyFloat (data a)))
      = content (PyArray (mk_ndarray [1; 3] [0%float; 101%float; 0.5%float])).
Proof.
  apply (encode_representations_agree (Stub.encoder 768) "hi" Stub.st0
           (Stub.after_calls 3)
           (PyArray (mk_ndarray [1; 3] [0%float; 101%float; 0.5%float]))).
  vm_compute. reflexivity.
Defined.


Lemma stub_deterministic : @deterministic_backend Stub.stub.
Proof.
  split; [|split].
  - intros tk text kw b b'. cbn. unfold Stub.tokenizer_call.
    destruct (Stub.mem 63 (Stub.codes text)); reflexivity.
  - intros enc device b b'. reflexivity.
  - intros n device train x b b'. cbn. unfold Stub.net_forward.
    destruct (Stub.mem 33 x.1); reflexivity.
Defined.


(** C10. The configured embedding size is stored by [__init__] as given
    and handed back by the property, and nothing else: construction does
    not compare it with the model, and [__call__] never reads it.  On the
    success path (a hidden state of shape (1, S, H) in an element type
    numpy has) the list has the width H of the model's hidden states, so
    with a configured size other than H the returned list has a length that
    differs from [embedding_size], and nothing is raised or logged. *)
Theorem embedding_size_is_not_checked {BE : Backend} :
  (forall model_id size max_input_length device cache_dir st self st',
      EmbeddingModelSingleton__init__ model_id size max_input_length device cache_dir st
        = (Return self, st') ->
      EmbeddingModelSingleton.embedding_size self = size /\
      forall size',
        EmbeddingModelSingleton__init__
          model_id size' max_input_length device cache_dir st
        = (Return (with_embedding_size self size'), st')) /\
  (forall self size input_text to_list st,
      EmbeddingModelSingleton__call__ (with_embedding_size self size) input_text to_list st
      = EmbeddingModelSingleton__call__ self input_text to_list st) /\
  (forall self input_text st tok st1 result st2 S H,
      tokenize self input_text st = (Return tok, st1) ->
      Model_call (EmbeddingModelSingleton._model self) tok st1 = (Return result, st2) ->
      t_shape (last_hidden_state result) = [1; S; H] ->
      wf_Tensor (last_hidden_state result) ->
      0 < S ->
      numpy_supports (t_dtype (last_hidden_state result)) = true ->
      Z.of_nat H <> EmbeddingModelSingleton.embedding_size self ->
      exists l : list pyobj,
        EmbeddingModelSingleton__call__ self input_text true st = (Return (PyList l), st2) /\
        length l = H /\
        Z.of_nat (length l) <> EmbeddingModelSingleton.embedding_size self /\
        log st2 = log st).
Proof.
  split; [|split].
  - intros model_id size max_input_length device cache_dir st self st' Hinit.
    pose proof Hinit as Hret.
    apply encoder_init_Return in Hret
      as (tk & b1 & n & d0 & tr0 & b2 & n' & b3 & Htk & Hm & Hto & -> & ->).
    split; [reflexivity|]. intros size'.
    unfold EmbeddingModelSingleton__init__, bind at 1. rewrite ext_run, Htk. simpl.
    unfold bind at 1. rewrite AutoModel_load_run. simpl. rewrite Hm. simpl.
    unfold bind. rewrite Model_to_run. simpl. rewrite Hto. reflexivity.
  - intros. apply call_with_embedding_size.
  - intros self input_text st tok st1 result st2 S H Htok Hfwd Hshape Hwf HS Hdtype Hne.
    exists (map PyFloat (first_token_states (last_hidden_state result))).
    pose proof (first_token_states_length _ _ _ _ Hshape Hwf HS) as Hlen.
    rewrite Nat.mul_1_l in Hlen.
    rewrite (call_pooled _ _ true _ _ _ _ _ _ _ _ Htok Hfwd Hshape HS Hdtype).
    rewrite length_map, Hlen. repeat split; [assumption|].
    pose proof (tokenize_preserves_log self input_text st) as H1.
    pose proof (Model_call_preserves_log (EmbeddingModelSingleton._model self) tok st1)
      as H2.
    rewrite Htok in H1. rewrite Hfwd in H2. simpl in *. congruence.
Qed.

Lemma embedding_size_is_not_checked_witness :
  exists l : list pyobj,
    EmbeddingModelSingleton__call__ (Stub.encoder 768) "hi" true Stub.st0
      = (Return (PyList l), Stub.after_calls 3) /\
    length l = 3 /\
    Z.of_nat (length l) <> 768%Z /\
    log (Stub.after_calls 3) = log Stub.st0.
Proof.
  apply (proj2 (proj2 (@embedding_size_is_not_checked Stub.stub))
           (Stub.encoder 768) "hi" Stub.st0
           ([101; 104; 105; 102]%Z, "cuda") (Stub.after_calls 2)
           (mk_ModelOutput
              (mk_Tensor [1; 4; 3]
                 (Stub.hidden_rows 0 [101; 104; 105; 102]%Z) "cuda" true float32))
           (Stub.after_calls 3) 4 3).
  - reflexivity.
  - reflexivity.
  - reflexivity.
  - reflexivity.
  - lia.
  - reflexivity.
  - vm_compute. discriminate.
Defined.

(** ** The scorer *)




(** C7. [__call__] of the scorer has no handler: an exception raised by the
    pairwise model, of whatever class, [Exception] included, reaches the
    caller as it is, and nothing is logged. *)
Theorem score_propagates_failures {BE : Backend}
    (self : CrossEncoderModelSingleton.t) (pairs : list (string * string))
    (st : State) (e : exn) (b' : backend_state) :
  CrossEncoder_predict (CrossEncoderModelSingleton._model self) pairs (backend st)
    = (Raise e, b') ->
  CrossEncoderModelSingleton__call__ self pairs st =
    (Raise e, {| instances := instances st; log := log st; backend := b' |}).
Proof.
  intros Hpredict. unfold CrossEncoderModelSingleton__call__, bind.
  rewrite ext_run, Hpredict. reflexivity.
Qed.

Lemma score_propagates_failures_witness :
  isinstance_Exception Stub.ValueError = true /\
  CrossEncoderModelSingleton__call__ Stub.scorer [(EmptyString, "Bananas are yellow.")] Stub.st0 =
    (Raise Stub.ValueError,
     {| instances := instances Stub.st0; log := log Stub.st0; backend := 1 |}).
Proof.
  split; [reflexivity|].
  apply (score_propagates_failures Stub.scorer [(EmptyString, "Bananas are yellow.")]
           Stub.st0 Stub.ValueError 1).
  reflexivity.
Defined.

(** ** Singletons *)

(** C4. Once a class has constructed its instance, from a registry that
    held none, the instance has the attributes of that first call; and
    after any number of further calls (constructions, encodings, scorings),
    constructing the class again with any other arguments returns that same
    instance and changes nothing: no library is called, the registry is as
    it was.  Both for the encoder and for the scorer. *)
Theorem singleton_keeps_first_configuration {BE : Backend} :
  (forall model_id embedding_size max_input_length device cache_dir
          st0 inst st1 st2
          model_id' embedding_size' max_input_length' device' cache_dir',
      instances st0 !! EmbeddingModelSingleton_cls = None ->
      EmbeddingModelSingleton_new
        model_id embedding_size max_input_length device cache_dir st0
        = (Return inst, st1) ->
      rtc step st1 st2 ->
      (exists self,
          inst = EncoderObj self /\
          EmbeddingModelSingleton.model_id self = model_id /\
          EmbeddingModelSingleton.embedding_size self = embedding_size /\
          EmbeddingModelSingleton.max_input_length self = max_input_length /\
          EmbeddingModelSingleton._device self = device) /\
      EmbeddingModelSingleton_new
        model_id' embedding_size' max_input_length' device' cache_dir' st2
        = (Return inst, st2)) /\
  (forall model_id device st0 inst st1 st2 model_id' device',
      instances st0 !! CrossEncoderModelSingleton_cls = None ->
      CrossEncoderModelSingleton_new model_id device st0 = (Return inst, st1) ->
      rtc step st1 st2 ->
      (exists self,
          inst = ScorerObj self /\
          CrossEncoderModelSingleton._model_id self = model_id /\
          CrossEncoderModelSingleton._device self = device) /\
      CrossEncoderModelSingleton_new model_id' device' st2 = (Return inst, st2)).
Proof.
  split.
  - intros model_id embedding_size max_input_length device cache_dir
           st0 inst st1 st2 model_id' embedding_size' max_input_length' device'
           cache_dir' Hnone Hnew Hsteps.
    unfold EmbeddingModelSingleton_new in Hnew.
    rewrite (SingletonMeta_call_miss _ _ _ Hnone) in Hnew. unfold bind in Hnew.
    destruct (EmbeddingModelSingleton__init__
                model_id embedding_size max_input_length device cache_dir st0)
      as [[self|e] st0'] eqn:Hinit; [|discriminate].
    unfold ret in Hnew. injection Hnew as <- <-.
    apply encoder_init_Return in Hinit
      as (tk & b1 & n & d0 & tr0 & b2 & n' & b3 & _ & _ & _ & -> & _).
    split; [eexists; repeat split|].
    apply SingletonMeta_call_hit. eapply steps_keep; [exact Hsteps|].
    simpl. apply lookup_insert_eq.
  - intros model_id device st0 inst st1 st2 model_id' device' Hnone Hnew Hsteps.
    unfold CrossEncoderModelSingleton_new in Hnew.
    rewrite (SingletonMeta_call_miss _ _ _ Hnone) in Hnew. unfold bind in Hnew.
    unfold CrossEncoderModelSingleton__init__, bind in Hnew. rewrite ext_run in Hnew.
    destruct (CrossEncoder_new model_id device (backend st0)) as [[m|e] b1];
      simpl in Hnew; [|discriminate].
    unfold ret in Hnew. injection Hnew as <- <-.
    split; [eexists; repeat split|].
    apply SingletonMeta_call_hit. eapply steps_keep; [exact Hsteps|].
    simpl. apply lookup_insert_eq.
Qed.

Lemma singleton_keeps_first_configuration_witness :
  let st2 := (EmbeddingModelSingleton__call__ Stub.constructed "hi" true Stub.st1).2 in
  (exists self,
      EncoderObj Stub.constructed = EncoderObj self /\
      EmbeddingModelSingleton.model_id self = "model-a" /\
      EmbeddingModelSingleton.embedding_size self = 768%Z /\
      EmbeddingModelSingleton.max_input_length self = 8%Z /\
      EmbeddingModelSingleton._device self = "cuda") /\
  EmbeddingModelSingleton_new "model-b" 384 16 "cpu" (Some (mk_Path "/models")) st2
    = (Return (EncoderObj Stub.constructed), st2).
Proof.
  apply (proj1 (@singleton_keeps_first_configuration Stub.stub)
           "model-a" 768%Z 8%Z "cuda" None
           Stub.st0 (EncoderObj Stub.constructed) Stub.st1
           (EmbeddingModelSingleton__call__ Stub.constructed "hi" true Stub.st1).2
           "model-b" 384%Z 16%Z "cpu" (Some (mk_Path "/models"))).
  - reflexivity.
  - reflexivity.
  - apply rtc_once. exact (step_encode Stub.constructed "hi" true Stub.st1).
Defined.

(** ** Construction *)

(** C9, at a construction with a cache directory.  The model is loaded for
    the configured identifier from the cache directory, moved to the
    configured device and put in inference mode; the tokenizer is loaded
    for the same identifier, but [cache_dir] is not passed on to its
    loader: it comes from the default location. *)
Theorem encoder_init_tokenizer_ignores_cache_dir :
  exists (self : @EmbeddingModelSingleton.t Stub.stub) (st' : State),
    EmbeddingModelSingleton__init__
      "model-a" 768 8 "cuda" (Some (mk_Path "/models")) Stub.st0
      = (Return self, st') /\
    net (EmbeddingModelSingleton._model self) = ("model-a", Some "/models") /\
    model_device (EmbeddingModelSingleton._model self) = "cuda" /\
    training (EmbeddingModelSingleton._model self) = false /\
    EmbeddingModelSingleton._tokenizer self = ("model-a", None) /\
    EmbeddingModelSingleton._tokenizer self <> ("model-a", Some "/models").
Proof.
  do 2 eexists. split; [reflexivity|]. repeat (split; [reflexivity|]). discriminate.
Qed.

(** * Further properties of the code *)

(** ** Construction of the encoder *)

(** X1. A construction that succeeds has loaded the tokenizer for the
    configured identifier, holds a model that is on the configured device
    and in inference mode, whatever device and mode the loader left it in,
    and answers the properties with the arguments it was given; it has
    logged nothing and has not touched the registry. *)
Theorem encoder_init_postcondition {BE : Backend}
    (model_id : string) (embedding_size max_input_length : Z) (device : string)
    (cache_dir : option Path) (st st' : State) (self : EmbeddingModelSingleton.t) :
  EmbeddingModelSingleton__init__
    model_id embedding_size max_input_length device cache_dir st = (Return self, st') ->
  EmbeddingModelSingleton.model_id self = model_id /\
  EmbeddingModelSingleton.embedding_size self = embedding_size /\
  EmbeddingModelSingleton.max_input_length self = max_input_length /\
  EmbeddingModelSingleton._device self = device /\
  (exists b1,
      AutoTokenizer_from_pretrained model_id None (backend st)
      = (Return (EmbeddingModelSingleton.tokenizer self), b1)) /\
  model_device (EmbeddingModelSingleton._model self) = device /\
  training (EmbeddingModelSingleton._model self) = false /\
  instances st' = instances st /\
  log st' = log st.
Proof.
  intros Hinit. apply encoder_init_Return in Hinit
    as (tk & b1 & n & d0 & tr0 & b2 & n' & b3 & Htk & _ & _ & -> & ->).
  repeat split. exists b1. exact Htk.
Qed.

Lemma encoder_init_postcondition_witness :
  EmbeddingModelSingleton.model_id Stub.constructed = "model-a" /\
  EmbeddingModelSingleton.embedding_size Stub.constructed = 768%Z /\
  EmbeddingModelSingleton.max_input_length Stub.constructed = 8%Z /\
  EmbeddingModelSingleton._device Stub.constructed = "cuda" /\
  (exists b1,
      AutoTokenizer_from_pretrained "model-a" None (backend Stub.st0)
      = (Return (EmbeddingModelSingleton.tokenizer Stub.constructed), b1)) /\
  model_device (EmbeddingModelSingleton._model Stub.constructed) = "cuda" /\
  training (EmbeddingModelSingleton._model Stub.constructed) = false /\
  instances (Stub.after_calls 3) = instances Stub.st0 /\
  log (Stub.after_calls 3) = log Stub.st0.
Proof.
  apply (encoder_init_postcondition "model-a" 768%Z 8%Z "cuda" None
           Stub.st0 (Stub.after_calls 3) Stub.constructed).
  reflexivity.
Defined.

(** X2. [__init__] has no handler: an exception of any class raised while
    loading the tokenizer, loading the model or moving the model to the
    device leaves [__init__] as it is, and the steps after the failing one
    are not run (the libraries are left in the state of the failing call). *)
Theorem encoder_init_propagates_failures {BE : Backend}
    (model_id : string) (embedding_size max_input_length : Z) (device : string)
    (cache_dir : option Path) (st : State) (e : exn) :
  (forall b1,
      AutoTokenizer_from_pretrained model_id None (backend st) = (Raise e, b1) ->
      EmbeddingModelSingleton__init__
        model_id embedding_size max_input_length device cache_dir st
      = (Raise e, {| instances := instances st; log := log st; backend := b1 |})) /\
  (forall tk b1 b2,
      AutoTokenizer_from_pretrained model_id None (backend st) = (Return tk, b1) ->
      AutoModel_from_pretrained model_id (cache_dir_kwarg cache_dir) b1 = (Raise e, b2) ->
      EmbeddingModelSingleton__init__
        model_id embedding_size max_input_length device cache_dir st
      = (Raise e, {| instances := instances st; log := log st; backend := b2 |})) /\
  (forall tk b1 loaded b2 b3,
      AutoTokenizer_from_pretrained model_id None (backend st) = (Return tk, b1) ->
      AutoModel_from_pretrained model_id (cache_dir_kwarg cache_dir) b1
        = (Return loaded, b2) ->
      Net_to loaded.1.1 device b2 = (Raise e, b3) ->
      EmbeddingModelSingleton__init__
        model_id embedding_size max_input_length device cache_dir st
      = (Raise e, {| instances := instances st; log := log st; backend := b3 |})).
Proof.
  split; [|split].
  - intros b1 Htk. unfold EmbeddingModelSingleton__init__, bind.
    rewrite ext_run, Htk. reflexivity.
  - intros tk b1 b2 Htk Hm. unfold EmbeddingModelSingleton__init__, bind at 1.
    rewrite ext_run, Htk. simpl. unfold bind. rewrite AutoModel_load_run. simpl.
    rewrite Hm. reflexivity.
  - intros tk b1 loaded b2 b3 Htk Hm Hto.
    unfold EmbeddingModelSingleton__init__, bind at 1.
    rewrite ext_run, Htk. simpl. unfold bind at 1. rewrite AutoModel_load_run. simpl.
    rewrite Hm. simpl. unfold bind. rewrite Model_to_run. simpl. rewrite Hto.
    reflexivity.
Qed.

Lemma encoder_init_propagates_failures_witness :
  EmbeddingModelSingleton__init__ EmptyString 768 8 "cuda" None Stub.st0
  = (Raise Stub.OSError,
     {| instances := instances Stub.st0; log := log Stub.st0; backend := 1 |}).
Proof.
  apply (proj1 (encoder_init_propagates_failures
                  EmptyString 768%Z 8%Z "cuda" None Stub.st0 Stub.OSError)).
  reflexivity.
Defined.

(** ** Encoding: what is logged, what is raised *)

(** X3. A call of the encoder either leaves the log as it is, or appends
    exactly two records, both errors, and then returns the empty result:
    a diagnostic is never emitted together with a vector or an exception,
    and no record is ever removed. *)
Theorem encode_logs_only_on_handled_failure {BE : Backend}
    (self : EmbeddingModelSingleton.t) (input_text : string) (to_list : bool)
    (st : State) :
  log (EmbeddingModelSingleton__call__ self input_text to_list st).2 = log st \/
  exists m1 m2,
    log (EmbeddingModelSingleton__call__ self input_text to_list st).2
      = (log st ++ [ERROR m1; ERROR m2])%list /\
    (EmbeddingModelSingleton__call__ self input_text to_list st).1
      = Return (empty_result to_list).
Proof.
  pose proof (tokenize_preserves_log self input_text st) as Hlog1.
  destruct (tokenize self input_text st) as [[tok|e] st1] eqn:Htok; simpl in Hlog1.
  - pose proof (Model_call_preserves_log (EmbeddingModelSingleton._model self) tok st1)
      as Hlog2.
    destruct (Model_call (EmbeddingModelSingleton._model self) tok st1)
      as [[result|e] st2] eqn:Hfwd; simpl in Hlog2.
    + left. rewrite (call_success _ _ _ _ _ _ _ _ Htok Hfwd), pool_run. simpl.
      congruence.
    + rewrite (call_forward_raises _ _ _ _ _ _ _ _ Htok Hfwd).
      destruct (isinstance_Exception e); simpl.
      * right. do 2 eexists. split; [|reflexivity]. rewrite Hlog2, Hlog1. reflexivity.
      * left. congruence.
  - rewrite (call_tokenize_raises _ _ _ _ _ _ Htok).
    destruct (isinstance_Exception e); simpl.
    + right. do 2 eexists. split; [|reflexivity]. rewrite Hlog1. reflexivity.
    + left. exact Hlog1.
Qed.

(** X4. The handlers name [Exception]: an interrupt or an exit request
    raised during tokenization or during the forward pass is not turned
    into an empty result.  It reaches the caller, and nothing is logged. *)
Theorem encode_reraises_non_Exception {BE : Backend}
    (self : EmbeddingModelSingleton.t) (input_text : string) (to_list : bool)
    (st st1 : State) (e : exn) :
  isinstance_Exception e = false ->
  (tokenize self input_text st = (Raise e, st1) \/
   exists tok st0,
     tokenize self input_text st = (Return tok, st0) /\
     Model_call (EmbeddingModelSingleton._model self) tok st0 = (Raise e, st1)) ->
  EmbeddingModelSingleton__call__ self input_text to_list st = (Raise e, st1) /\
  log st1 = log st.
Proof.
  intros He [Htok | (tok & st0 & Htok & Hfwd)].
  - rewrite (call_tokenize_raises _ _ _ _ _ _ Htok), He. split; [reflexivity|].
    pose proof (tokenize_preserves_log self input_text st) as Hlog.
    now rewrite Htok in Hlog.
  - rewrite (call_forward_raises _ _ _ _ _ _ _ _ Htok Hfwd), He. split; [reflexivity|].
    pose proof (tokenize_preserves_log self input_text st) as Hlog1.
    pose proof (Model_call_preserves_log (EmbeddingModelSingleton._model self) tok st0)
      as Hlog2.
    rewrite Htok in Hlog1. rewrite Hfwd in Hlog2. simpl in *. congruence.
Qed.

Lemma encode_reraises_non_Exception_witness :
  isinstance_Exception Interrupted.Interrupt = false /\
  EmbeddingModelSingleton__call__ Interrupted.encoder "hi" true
    (Interrupted.after_calls 0)
  = (Raise Interrupted.Interrupt, Interrupted.after_calls 1) /\
  log (Interrupted.after_calls 1) = log (Interrupted.after_calls 0).
Proof.
  split; [reflexivity|].
  apply (encode_reraises_non_Exception Interrupted.encoder "hi" true
           (Interrupted.after_calls 0) (Interrupted.after_calls 1)
           Interrupted.Interrupt).
  - reflexivity.
  - left. reflexivity.
Defined.

(** X5. The slice [[:, 0, :]] is taken after the second handler: when the
    model hands back a hidden state with fewer than three dimensions, or
    with no token position at all, the call raises [IndexError] to the
    caller, although it is an [Exception], and logs nothing. *)
Theorem encode_raises_IndexError_outside_handlers {BE : Backend}
    (self : EmbeddingModelSingleton.t) (input_text : string) (to_list : bool)
    (st st1 st2 : State) (tok : BatchEncoding) (result : ModelOutput) :
  tokenize self input_text st = (Return tok, st1) ->
  Model_call (EmbeddingModelSingleton._model self) tok st1 = (Return result, st2) ->
  (length (t_shape (last_hidden_state result)) < 3 \/
   exists B rest, t_shape (last_hidden_state result) = B :: 0 :: rest) ->
  EmbeddingModelSingleton__call__ self input_text to_list st = (Raise IndexError, st2) /\
  isinstance_Exception IndexError = true /\
  log st2 = log st.
Proof.
  intros Htok Hfwd Hshape.
  rewrite (call_success _ _ _ _ _ _ _ _ Htok Hfwd), pool_run.
  split; [|split; [reflexivity|]].
  - unfold getitem_all_0_all.
    destruct Hshape as [Hlt | (B & rest & ->)].
    + destruct (t_shape (last_hidden_state result)) as [|b [|s [|h rest]]];
        simpl in Hlt; try reflexivity. lia.
    + destruct rest; reflexivity.
  - pose proof (tokenize_preserves_log self input_text st) as Hlog1.
    pose proof (Model_call_preserves_log (EmbeddingModelSingleton._model self) tok st1)
      as Hlog2.
    rewrite Htok in Hlog1. rewrite Hfwd in Hlog2. simpl in *. congruence.
Qed.

Lemma encode_raises_IndexError_outside_handlers_witness :
  EmbeddingModelSingleton__call__ Stub.encoder_no_tokens "hi" true Stub.st0
  = (Raise IndexError, Stub.after_calls 3) /\
  isinstance_Exception IndexError = true /\
  log (Stub.after_calls 3) = log Stub.st0.
Proof.
  apply (encode_raises_IndexError_outside_handlers Stub.encoder_no_tokens "hi" true
           Stub.st0 (Stub.after_calls 2) (Stub.after_calls 3)
           ([], "cuda")
           (mk_ModelOutput (mk_Tensor [1; 0; 3] [] "cuda" true float32))).
  - reflexivity.
  - reflexivity.
  - right. exists 1, [3]. reflexivity.
Defined.

(** X6. The first handler covers the tokenizer call and the move of its
    result to the device alike.  When the tokenizer raises an [Exception],
    the encoding is not moved and the model is not run; when the move
    raises, the model is not run, and the failure is reported with the
    message of a tokenization error.  In both cases the libraries are left
    in the state of the failing call. *)
Theorem encode_stops_at_first_failure {BE : Backend}
    (self : EmbeddingModelSingleton.t) (input_text : string) (to_list : bool)
    (st : State) (e : exn) (b1 : backend_state) :
  isinstance_Exception e = true ->
  let kwargs := {| padding := true;
                   truncation := true;
                   return_tensors := "pt";
                   max_length := EmbeddingModelSingleton._max_input_length self |} in
  let reported :=
    (Return (empty_result to_list),
     {| instances := instances st;
        log := log st ++ [ERROR (format_exc e);
                          ERROR ("Error tokenizing the following input text: "
                                 ++ input_text)];
        backend := b1 |}) in
  (Tokenizer_call (EmbeddingModelSingleton._tokenizer self) input_text kwargs (backend st)
     = (Raise e, b1) ->
   EmbeddingModelSingleton__call__ self input_text to_list st = reported) /\
  (forall enc b0,
      Tokenizer_call (EmbeddingModelSingleton._tokenizer self) input_text kwargs
        (backend st) = (Return enc, b0) ->
      BatchEncoding_to enc (EmbeddingModelSingleton._device self) b0 = (Raise e, b1) ->
      EmbeddingModelSingleton__call__ self input_text to_list st = reported).
Proof.
  intros He kwargs reported. subst kwargs reported. split.
  - intros Htk.
    rewrite (call_tokenize_raises self input_text to_list st e
               {| instances := instances st; log := log st; backend := b1 |}).
    + now rewrite He.
    + unfold tokenize, bind. rewrite ext_run, Htk. reflexivity.
  - intros enc b0 Htk Hto.
    rewrite (call_tokenize_raises self input_text to_list st e
               {| instances := instances st; log := log st; backend := b1 |}).
    + now rewrite He.
    + unfold tokenize, bind. rewrite ext_run, Htk. simpl.
      rewrite ext_run. simpl. rewrite Hto. reflexivity.
Qed.

Lemma encode_stops_at_first_failure_witness :
  isinstance_Exception Stub.ValueError = true /\
  EmbeddingModelSingleton__call__ (Stub.encoder 3) "hi?" true Stub.st0 =
  (Return (empty_result true),
   {| instances := instances Stub.st0;
      log := log Stub.st0
             ++ [ERROR (format_exc Stub.ValueError);
                 ERROR ("Error tokenizing the following input text: " ++ "hi?")];
      backend := 1 |}).
Proof.
  split; [reflexivity|].
  apply (proj1 (encode_stops_at_first_failure (Stub.encoder 3) "hi?" true
                  Stub.st0 Stub.ValueError 1 eq_refl)).
  reflexivity.
Defined.

(** X8. When the model's hidden state is a well-formed tensor of shape
    (B, S, H) with a token position at least, in an element type numpy
    has, the array returned is well formed too, of shape (B, H), and the
    list returned has B * H floats: the token dimension is gone and nothing
    else. *)
Theorem encode_output_well_formed {BE : Backend}
    (self : EmbeddingModelSingleton.t) (input_text : string)
    (st st1 st2 : State) (tok : BatchEncoding) (result : ModelOutput) (B S H : nat) :
  tokenize self input_text st = (Return tok, st1) ->
  Model_call (EmbeddingModelSingleton._model self) tok st1 = (Return result, st2) ->
  t_shape (last_hidden_state result) = [B; S; H] ->
  wf_Tensor (last_hidden_state result) ->
  0 < S ->
  numpy_supports (t_dtype (last_hidden_state result)) = true ->
  exists (a : ndarray) (l : list pyobj),
    EmbeddingModelSingleton__call__ self input_text false st = (Return (PyArray a), st2) /\
    shape a = [B; H] /\
    wf_ndarray a /\
    EmbeddingModelSingleton__call__ self input_text true st = (Return (PyList l), st2) /\
    length l = B * H.
Proof.
  intros Htok Hfwd Hshape Hwf HS Hdtype.
  pose proof (first_token_states_length _ _ _ _ Hshape Hwf HS) as Hlen.
  do 2 eexists.
  rewrite !(call_pooled _ _ _ _ _ _ _ _ _ _ _ Htok Hfwd Hshape HS Hdtype).
  split; [reflexivity|]. split; [reflexivity|]. split; [|split; [reflexivity|]].
  - unfold wf_ndarray. simpl. rewrite Hlen. lia.
  - now rewrite length_map.
Qed.

Lemma encode_output_well_formed_witness :
  exists (a : ndarray) (l : list pyobj),
    EmbeddingModelSingleton__call__ (Stub.encoder 3) "hi" false Stub.st0
      = (Return (PyArray a), Stub.after_calls 3) /\
    shape a = [1; 3] /\
    wf_ndarray a /\
    EmbeddingModelSingleton__call__ (Stub.encoder 3) "hi" true Stub.st0
      = (Return (PyList l), Stub.after_calls 3) /\
    length l = 1 * 3.
Proof.
  apply (encode_output_well_formed (Stub.encoder 3) "hi" Stub.st0
           (Stub.after_calls 2) (Stub.after_calls 3)
           ([101; 104; 105; 102]%Z, "cuda")
           (mk_ModelOutput
              (mk_Tensor [1; 4; 3]
                 (Stub.hidden_rows 0 [101; 104; 105; 102]%Z) "cuda" true float32))
           1 4 3).
  - reflexivity.
  - reflexivity.
  - reflexivity.
  - reflexivity.
  - lia.
  - reflexivity.
Defined.

(** ** Scoring: arrays of any shape *)

(** X7. Whatever the shape of the well-formed array the pairwise model
    hands back, [__call__] returns exactly its numbers, in order, and
    touches neither the log nor the registry.  The container follows the
    shape: a bare float for a zero-dimensional array, and for an array of
    shape (n, k), as a model with k labels gives, a list of n lists of k
    floats, row [i] holding the k scores of pair [i]. *)
Theorem score_returns_model_scores {BE : Backend}
    (self : CrossEncoderModelSingleton.t) (pairs : list (string * string))
    (st : State) (a : ndarray) (b' : backend_state) :
  CrossEncoder_predict (CrossEncoderModelSingleton._model self) pairs (backend st)
    = (Return a, b') ->
  wf_ndarray a ->
  exists out : pyobj,
    CrossEncoderModelSingleton__call__ self pairs st =
      (Return out, {| instances := instances st; log := log st; backend := b' |}) /\
    content out = data a /\
    (shape a = [] -> exists x, data a = [x] /\ out = PyFloat x) /\
    (forall n k,
        shape a = [n; k] ->
        exists rows : list pyobj,
          out = PyList rows /\
          length rows = n /\
          forall i, i < n ->
            rows !! i
            = Some (PyList (map PyFloat (firstn k (skipn (i * k) (data a)))))).
Proof.
  intros Hpredict Hwf. exists (tolist a).
  destruct a as [shp d]. unfold wf_ndarray in Hwf. simpl in *.
  split; [|split; [|split]].
  - unfold CrossEncoderModelSingleton__call__, bind, ret.
    rewrite ext_run, Hpredict. reflexivity.
  - now apply content_tolist_aux.
  - intros ->. destruct d as [|x [|y d]]; try discriminate. now exists x.
  - intros n k ->. change (size_of [n; k]) with (n * (k * 1)) in Hwf.
    rewrite Nat.mul_1_r in Hwf.
    exists (map (tolist_aux [k]) (chunks n k d)). split; [|split].
    + unfold tolist. simpl. now rewrite Nat.mul_1_r.
    + rewrite length_map. clear. revert d.
      induction n as [|n IH]; intros d; simpl; [reflexivity|]. now rewrite IH.
    + intros i Hi. rewrite list_lookup_fmap, chunks_lookup by assumption. simpl.
      f_equal.
      assert (Hk : length (firstn k (skipn (i * k) d)) = k).
      { rewrite length_firstn, length_skipn, Hwf.
        assert (k + i * k <= n * k)
          by (change (S i * k <= n * k); apply Nat.mul_le_mono_r; lia).
        lia. }
      rewrite <- Hk at 1. apply tolist_1d.
Qed.

Example run_score_two_labels :
  CrossEncoderModelSingleton__call__ TwoLabels.scorer [("a", "bc"); ("q", "r")]
    TwoLabels.st0 =
  (Return (PyList [PyList [PyFloat 1; PyFloat 2]; PyList [PyFloat 1; PyFloat 1]]),
   TwoLabels.after_calls 1).
Proof. reflexivity. Qed.

Lemma score_returns_model_scores_witness :
  let a := mk_ndarray [2; 2]
             [Stub.float_of_nat 1; Stub.float_of_nat 2;
              Stub.float_of_nat 1; Stub.float_of_nat 1] in
  exists out : pyobj,
    CrossEncoderModelSingleton__call__ TwoLabels.scorer [("a", "bc"); ("q", "r")]
      TwoLabels.st0 =
      (Return out,
       {| instances := instances TwoLabels.st0;
          log := log TwoLabels.st0;
          backend := 1 |}) /\
    content out = data a /\
    (shape a = [] -> exists x, data a = [x] /\ out = PyFloat x) /\
    (forall n k,
        shape a = [n; k] ->
        exists rows : list pyobj,
          out = PyList rows /\
          length rows = n /\
          forall i, i < n ->
            rows !! i
            = Some (PyList (map PyFloat (firstn k (skipn (i * k) (data a)))))).
Proof.
  apply (score_returns_model_scores TwoLabels.scorer [("a", "bc"); ("q", "r")]
           TwoLabels.st0
           (mk_ndarray [2; 2]
              [Stub.float_of_nat 1; Stub.float_of_nat 2;
               Stub.float_of_nat 1; Stub.float_of_nat 1]) 1).
  - reflexivity.
  - reflexivity.
Defined.

(** ** Encoding: element types numpy does not have *)

(** X9. The conversion [.cpu().detach().numpy()] is after the second
    handler too: when the forward pass succeeds with a hidden state of
    shape (B, S, H), a token at least, in an element type numpy does not
    have (bfloat16), the call raises [TypeError] to the caller, although it
    is an [Exception], whatever the [to_list] flag, and logs nothing. *)
Theorem encode_raises_TypeError_on_unsupported_dtype {BE : Backend}
    (self : EmbeddingModelSingleton.t) (input_text : string) (to_list : bool)
    (st st1 st2 : State) (tok : BatchEncoding) (result : ModelOutput) (B S H : nat) :
  tokenize self input_text st = (Return tok, st1) ->
  Model_call (EmbeddingModelSingleton._model self) tok st1 = (Return result, st2) ->
  t_shape (last_hidden_state result) = [B; S; H] ->
  0 < S ->
  t_dtype (last_hidden_state result) = bfloat16 ->
  EmbeddingModelSingleton__call__ self input_text to_list st = (Raise TypeError, st2) /\
  isinstance_Exception TypeError = true /\
  log st2 = log st.
Proof.
  intros Htok Hfwd Hshape HS Hdtype.
  split; [|split; [reflexivity|]].
  - apply (call_unsupported_dtype _ _ _ _ _ _ _ _ B S H Htok Hfwd Hshape HS).
    now rewrite Hdtype.
  - pose proof (tokenize_preserves_log self input_text st) as Hlog1.
    pose proof (Model_call_preserves_log (EmbeddingModelSingleton._model self) tok st1)
      as Hlog2.
    rewrite Htok in Hlog1. rewrite Hfwd in Hlog2. simpl in *. congruence.
Qed.

Lemma encode_raises_TypeError_on_unsupported_dtype_witness :
  EmbeddingModelSingleton__call__ HalfPrecision.encoder "hi" false
    (HalfPrecision.after_calls 0)
  = (Raise TypeError, HalfPrecision.after_calls 3) /\
  isinstance_Exception TypeError = true /\
  log (HalfPrecision.after_calls 3) = log (HalfPrecision.after_calls 0).
Proof.
  apply (encode_raises_TypeError_on_unsupported_dtype HalfPrecision.encoder "hi" false
           (HalfPrecision.after_calls 0) (HalfPrecision.after_calls 2)
           (HalfPrecision.after_calls 3)
           ([101; 104; 105; 102]%Z, "cuda")
           (mk_ModelOutput
              (mk_Tensor [1; 4; 3]
                 (Stub.hidden_rows 0 [101; 104; 105; 102]%Z) "cuda" true bfloat16))
           1 4 3).
  - reflexivity.
  - reflexivity.
  - reflexivity.
  - lia.
  - reflexivity.
Defined.
